(** * Notes dashboard: listing, pagination and display helpers

    A shallow embedding of the notes dashboard of the note taker:

    - [NotesPage] (app/dashboard/notes/page.tsx): parsing of the URL search
      parameters, filtering, sorting and pagination of the notes;
    - the toolbar (components/notes/notes-toolbar.client.tsx): the URL
      parameters it writes, and [getCategoryColor];
    - the pagination (components/notes/pagination.client.tsx):
      [getPageNumbers], [createPageUrl], [handlePageChange] and the controls;
    - the grid and the card of a note (components/notes/notes-grid.tsx,
      note-card.client.tsx): the category of a card and the preview;
    - the editor page (app/dashboard/notes/[id]/page.tsx): [getMockNote].

    JavaScript values are modelled as follows.  Strings are [string]s of
    ASCII characters.  A number that the code only uses as an integer is a
    [number]: either [NaN] or [Num z] for an integer [z] (doubles represent
    integers exactly below 2^53; the model keeps larger ones exact as well).
    [undefined] and [null] are [None]. *)

From Stdlib Require Import ZArith List String Ascii Bool Lia Sorting.Sorted
  Sorting.Permutation.
Import ListNotations.

Local Open Scope string_scope.
Local Open Scope Z_scope.

(** ** The JavaScript runtime the code relies on *)

Module Js.

(** Integer-valued JavaScript numbers. *)
Inductive number : Type :=
| NaN : number
| Num (z : Z) : number.

(** [Math.max(a, b)] and [Math.min(a, b)]: [NaN] as soon as one argument is. *)
Definition max (a b : number) : number :=
  match a, b with
  | Num x, Num y => Num (Z.max x y)
  | _, _ => NaN
  end.

Definition min (a b : number) : number :=
  match a, b with
  | Num x, Num y => Num (Z.min x y)
  | _, _ => NaN
  end.

Definition add (a b : number) : number :=
  match a, b with
  | Num x, Num y => Num (x + y)
  | _, _ => NaN
  end.

Definition sub (a b : number) : number :=
  match a, b with
  | Num x, Num y => Num (x - y)
  | _, _ => NaN
  end.

Definition mul (a b : number) : number :=
  match a, b with
  | Num x, Num y => Num (x * y)
  | _, _ => NaN
  end.

(** [Math.ceil(a / b)] for a divisor [b] that is positive (or [NaN]): the
    quotient of two integers rounded up.  The only divisor the code uses is
    the page size, which is [NaN] or at least 5. *)
Definition ceilDiv (a b : number) : number :=
  match a, b with
  | Num x, Num y => Num (- ((- x) / y))
  | _, _ => NaN
  end.

(** [a > b] on numbers: false when one side is [NaN]. *)
Definition gt (a b : number) : bool :=
  match a, b with
  | Num x, Num y => y <? x
  | _, _ => false
  end.

(** [ToIntegerOrInfinity], as the array methods apply it to an index. *)
Definition toInteger (a : number) : Z :=
  match a with
  | NaN => 0
  | Num z => z
  end.

(** *** Strings *)

Definition code (c : ascii) : Z := Z.of_nat (nat_of_ascii c).

Definition isUpper (c : ascii) : bool := (65 <=? code c) && (code c <=? 90).

(** One character of [String.prototype.toLowerCase]: A-Z move to a-z.
    This is what [toLowerCase] does on a string of ASCII characters; the
    cased letters beyond ASCII are outside the model. *)
Definition lowerChar (c : ascii) : ascii :=
  if isUpper c then ascii_of_nat (nat_of_ascii c + 32) else c.

Fixpoint toLowerCase (s : string) : string :=
  match s with
  | EmptyString => EmptyString
  | String c t => String (lowerChar c) (toLowerCase t)
  end.

(** White space and line terminators: tab, line feed, vertical tab, form
    feed, carriage return, space.  These are the ones among the ASCII
    characters; the spaces beyond ASCII (U+00A0, U+FEFF and the like) are
    outside the model. *)
Definition isWhiteSpace (c : ascii) : bool :=
  ((9 <=? code c) && (code c <=? 13)) || (code c =? 32).

Fixpoint trimStart (s : string) : string :=
  match s with
  | EmptyString => EmptyString
  | String c t => if isWhiteSpace c then trimStart t else s
  end.

(** [trimEnd]: a white space character goes when all that follows went. *)
Fixpoint trimEnd (s : string) : string :=
  match s with
  | EmptyString => EmptyString
  | String c t =>
      match trimEnd t with
      | EmptyString => if isWhiteSpace c then EmptyString else String c EmptyString
      | t' => String c t'
      end
  end.

(** [String.prototype.trim]. *)
Definition trim (s : string) : string := trimEnd (trimStart s).

(** [s.length]. *)
Definition strlen (s : string) : Z := Z.of_nat (String.length s).

(** [s.includes(q)]: [q] occurs in [s] at some position. *)
Fixpoint includes (s q : string) : bool :=
  String.prefix q s ||
  match s with
  | EmptyString => false
  | String _ t => includes t q
  end.

(** *** parseInt *)

(** The value of a character as a digit, in any radix up to 36. *)
Definition digitValue (c : ascii) : option Z :=
  let n := code c in
  if (48 <=? n) && (n <=? 57) then Some (n - 48)
  else if (97 <=? n) && (n <=? 122) then Some (n - 87)
  else if (65 <=? n) && (n <=? 90) then Some (n - 55)
  else None.

(** The longest prefix of [s] made of digits of radix [r], read as an
    integer; [acc] is [None] until a first digit has been read. *)
Fixpoint parseDigits (r : Z) (s : string) (acc : option Z) : option Z :=
  match s with
  | EmptyString => acc
  | String c t =>
      match digitValue c with
      | Some d =>
          if d <? r
          then parseDigits r t (Some (match acc with Some a => a * r + d | None => d end))
          else acc
      | None => acc
      end
  end.

(** [parseInt(s)] without a radix: leading white space, an optional sign, an
    optional [0x] or [0X] (then the radix is 16, else 10), and the longest
    run of digits; [NaN] when there is no digit. *)
Definition parseInt (s : string) : number :=
  let s1 := trimStart s in
  let '(sign, s2) :=
    match s1 with
    | String "-" t => (-1, t)
    | String "+" t => (1, t)
    | _ => (1, s1)
    end in
  let '(radix, s3) :=
    match s2 with
    | String "0" (String "x" t) => (16, t)
    | String "0" (String "X" t) => (16, t)
    | _ => (10, s2)
    end in
  match parseDigits radix s3 None with
  | Some v => Num (sign * v)
  | None => NaN
  end.

(** [a || b] on an optional string: [undefined] and the empty string are
    falsy. *)
Definition orElse (a : option string) (b : string) : string :=
  match a with
  | Some EmptyString | None => b
  | Some s => s
  end.

(** [a || null] on an optional string. *)
Definition orNull (a : option string) : option string :=
  match a with
  | Some EmptyString | None => None
  | Some s => Some s
  end.

(** [arr.slice(start, end)]: negative indices count from the end, and both
    are clamped to the array. *)
Definition slice {A : Type} (l : list A) (s e : number) : list A :=
  let len := Z.of_nat (List.length l) in
  let rs := toInteger s in
  let k := if rs <? 0 then Z.max (len + rs) 0 else Z.min rs len in
  let re := toInteger e in
  let final := if re <? 0 then Z.max (len + re) 0 else Z.min re len in
  firstn (Z.to_nat (final - k)) (skipn (Z.to_nat k) l).

(** [arr.sort(cmp)] with a comparison function that returns a number: the
    sort is stable, and an element goes before another when [cmp] is
    negative.  Modelled as a stable insertion sort. *)
Section Sort.
Context {A : Type} (cmp : A -> A -> Z).

Fixpoint insert (x : A) (l : list A) : list A :=
  match l with
  | [] => [x]
  | y :: t => if cmp x y <=? 0 then x :: y :: t else y :: insert x t
  end.

Definition sort (l : list A) : list A := fold_right insert [] l.

(** [a] may stand before [b] in a sorted array. *)
Definition before (a b : A) : Prop := cmp a b <= 0.
End Sort.

End Js.

(** ** Data model (app/dashboard/notes/page.tsx) *)

Module Note.
(** [updatedAt] is the time of the [Date], in milliseconds. *)
Record t : Type := mk {
  id : string;
  title : string;
  content : string;
  categoryId : option string;
  isPinned : bool;
  isArchived : bool;
  updatedAt : Z
}.
End Note.

Module Category.
Record t : Type := mk {
  id : string;
  name : string;
  color : string
}.
End Category.

(** The URL search parameters of the page; an absent one is [None]. *)
Module Params.
Record t : Type := mk {
  q : option string;
  category : option string;
  page : option string;
  pageSize : option string;
  includeArchived : option string
}.

Definition empty : t := mk None None None None None.

(** The same parameters with another [q], another [category]. *)
Definition withQ (v : option string) (sp : t) : t :=
  mk v (category sp) (page sp) (pageSize sp) (includeArchived sp).

Definition withCategory (v : option string) (sp : t) : t :=
  mk (q sp) v (page sp) (pageSize sp) (includeArchived sp).
End Params.

(** ** The notes page *)

Module NotesPage.
Import Js.

(** The mock notes; [now] is the value of [Date.now()]. *)
Definition getMockNotes (now : Z) : list Note.t :=
  [ Note.mk "1" "Welcome to Notes"
      "This is your first note. Start writing and organizing your thoughts!"
      None true false now;
    Note.mk "2" "Project Ideas" "Here are some ideas for new projects..."
      (Some "cat-1") false false (now - 86400000);
    Note.mk "3" "Meeting Notes" "Discussed the new features and timeline..."
      (Some "cat-2") false false (now - 172800000) ].

Definition getMockCategories : list Category.t :=
  [ Category.mk "cat-1" "Work" "blue";
    Category.mk "cat-2" "Personal" "green";
    Category.mk "cat-3" "Ideas" "purple" ].

(** Parsing of the search parameters. *)
Definition searchQuery (sp : Params.t) : string := orElse (Params.q sp) "".

Definition categoryId (sp : Params.t) : option string := orNull (Params.category sp).

Definition page (sp : Params.t) : number :=
  max (parseInt (orElse (Params.page sp) "1")) (Num 1).

Definition pageSize (sp : Params.t) : number :=
  min (max (parseInt (orElse (Params.pageSize sp) "20")) (Num 5)) (Num 100).

Definition includeArchived (sp : Params.t) : bool :=
  match Params.includeArchived sp with
  | Some s => String.eqb s "true"
  | None => false
  end.

(** [a !== b] on optional strings. *)
Definition differ (a b : option string) : bool :=
  match a, b with
  | Some x, Some y => negb (String.eqb x y)
  | None, None => false
  | _, _ => true
  end.

(** The callback of [allNotes.filter]. *)
Definition keep (sp : Params.t) (note : Note.t) : bool :=
  if negb (includeArchived sp) && Note.isArchived note then false
  else if match categoryId sp with
          | Some c => differ (Note.categoryId note) (Some c)
          | None => false
          end then false
  else if 2 <=? strlen (searchQuery sp) then
    let query := toLowerCase (searchQuery sp) in
    includes (toLowerCase (Note.title note)) query
    || includes (toLowerCase (Note.content note)) query
  else true.

(** The comparison function of [filteredNotes.sort]. *)
Definition compareNotes (a b : Note.t) : Z :=
  if Note.isPinned a && negb (Note.isPinned b) then -1
  else if negb (Note.isPinned a) && Note.isPinned b then 1
  else Note.updatedAt b - Note.updatedAt a.

Definition filteredNotes (allNotes : list Note.t) (sp : Params.t) : list Note.t :=
  sort compareNotes (filter (keep sp) allNotes).

Definition total (allNotes : list Note.t) (sp : Params.t) : number :=
  Num (Z.of_nat (List.length (filteredNotes allNotes sp))).

Definition pageCount (allNotes : list Note.t) (sp : Params.t) : number :=
  max (ceilDiv (total allNotes sp) (pageSize sp)) (Num 1).

Definition startIndex (sp : Params.t) : number :=
  mul (sub (page sp) (Num 1)) (pageSize sp).

Definition paginatedNotes (allNotes : list Note.t) (sp : Params.t) : list Note.t :=
  slice (filteredNotes allNotes sp) (startIndex sp) (add (startIndex sp) (pageSize sp)).

(** What the page renders below the toolbar: the empty state, or the grid
    of the notes of the page, with the pagination ([currentPage],
    [pageCount]) when there is more than one page. *)
Inductive view : Type :=
| EmptyState (hasSearch : bool)
| NotesGrid (notes : list Note.t) (pagination : option (number * number)).

Definition truthy (s : string) : bool :=
  match s with EmptyString => false | _ => true end.

Definition render (allNotes : list Note.t) (sp : Params.t) : view :=
  match paginatedNotes allNotes sp with
  | [] =>
      EmptyState (truthy (searchQuery sp)
                  || match categoryId sp with Some _ => true | None => false end
                  || includeArchived sp)
  | notes =>
      NotesGrid notes
        (if gt (pageCount allNotes sp) (Num 1)
         then Some (page sp, pageCount allNotes sp) else None)
  end.

End NotesPage.

(** ** Sample data *)

Module Samples.

(** Three more notes: an unpinned one updated last, a pinned one updated
    first, and an archived one. *)
Definition noteGroceries : Note.t :=
  Note.mk "n1" "Groceries" "Milk and eggs" (Some "cat-1") false false 300.

Definition noteReadMe : Note.t :=
  Note.mk "n2" "Read me" "House rules" None true false 100.

Definition noteOldPlan : Note.t :=
  Note.mk "n3" "Old plan" "Eggs, long ago" (Some "cat-1") false true 200.

Definition sampleNotes : list Note.t := [noteGroceries; noteReadMe; noteOldPlan].

End Samples.

(** ** The toolbar (components/notes/notes-toolbar.client.tsx) *)

Module NotesToolbar.
Import Js.

(** The state of the component. *)
Record state : Type := mkState {
  search : string;
  category : option string;
  includeArchived : bool
}.

(** [handleCategoryChange]: the entry "all" of the select clears the
    category. *)
Definition handleCategoryChange (value : string) (st : state) : state :=
  mkState (search st)
          (if String.eqb value "all" then None else Some value)
          (includeArchived st).

(** [updateURL]: the search parameters the toolbar navigates to, from the
    current ones. *)
Definition updateURL (st : state) (searchParams : Params.t) : Params.t :=
  Params.mk
    (if 2 <=? strlen (trim (search st)) then Some (trim (search st)) else None)
    (match category st with
     | Some EmptyString | None => None
     | Some c => Some c
     end)
    (Some "1")
    (Params.pageSize searchParams)
    (if includeArchived st then Some "true" else None).

End NotesToolbar.

(** ** Category colors (note-card.client.tsx and notes-toolbar.client.tsx) *)

Module Colors.

(** What a property read on an object literal gives: [undefined], a string
    of the literal, or a member that every object inherits from
    [Object.prototype] (a function; for [__proto__], the prototype). *)
Inductive value : Type :=
| Undefined : value
| Str (s : string) : value
| Inherited (name : string) : value.

(** The properties of [Object.prototype]. *)
Definition objectPrototype : list string :=
  [ "constructor"; "hasOwnProperty"; "isPrototypeOf"; "propertyIsEnumerable";
    "toLocaleString"; "toString"; "valueOf"; "__proto__";
    "__defineGetter__"; "__defineSetter__"; "__lookupGetter__";
    "__lookupSetter__" ].

Fixpoint own (o : list (string * string)) (key : string) : option string :=
  match o with
  | [] => None
  | (k, v) :: rest => if String.eqb k key then Some v else own rest key
  end.

(** [o[key]]: an own property first, then the prototype. *)
Definition get (o : list (string * string)) (key : string) : value :=
  match own o key with
  | Some v => Str v
  | None => if existsb (String.eqb key) objectPrototype then Inherited key else Undefined
  end.

(** [a || b]. *)
Definition or (a b : value) : value :=
  match a with
  | Undefined | Str EmptyString => b
  | _ => a
  end.

Definition colorMap : list (string * string) :=
  [ ("blue", "#3b82f6"); ("green", "#10b981"); ("purple", "#8b5cf6");
    ("red", "#ef4444"); ("yellow", "#eab308"); ("orange", "#f97316");
    ("pink", "#ec4899"); ("indigo", "#6366f1"); ("slate", "#64748b");
    ("gray", "#6b7280") ].

Definition getCategoryColor (colorName : string) : value :=
  or (get colorMap colorName) (get colorMap "slate").

End Colors.

(** ** Pagination (components/notes/pagination.client.tsx) *)

Module NotesPagination.

Inductive pageItem : Type :=
| PageNumber (n : Z) : pageItem
| Ellipsis : pageItem.

(** [for (let i = lo; i <= hi; i++) pages = body i pages], with [fuel]
    bounding the number of rounds. *)
Fixpoint forLoop (fuel : nat) (i hi : Z)
    (body : Z -> list pageItem -> list pageItem) (pages : list pageItem)
    : list pageItem :=
  match fuel with
  | O => pages
  | S fuel' =>
      if i <=? hi then forLoop fuel' (i + 1) hi body (body i pages) else pages
  end.

(** The rounds a loop from [lo] to [hi] makes. *)
Definition rounds (lo hi : Z) : nat := Z.to_nat (hi - lo + 1).

Definition push (x : pageItem) (pages : list pageItem) : list pageItem :=
  pages ++ [x].

(** [getPageNumbers], for the integers [currentPage] and [pageCount] the
    component receives. *)
Definition getPageNumbers (currentPage pageCount : Z) : list pageItem :=
  let maxVisible := 5 in
  if pageCount <=? maxVisible then
    forLoop (rounds 1 pageCount) 1 pageCount (fun i => push (PageNumber i)) []
  else
    let pages := push (PageNumber 1) [] in
    let pages := if 3 <? currentPage then push Ellipsis pages else pages in
    let start := Z.max 2 (currentPage - 1) in
    let end_ := Z.min (pageCount - 1) (currentPage + 1) in
    let pages :=
      forLoop (rounds start end_) start end_
        (fun i pages =>
           if negb (i =? 1) && negb (i =? pageCount)
           then push (PageNumber i) pages else pages)
        pages in
    let pages := if currentPage <? pageCount - 2 then push Ellipsis pages else pages in
    let pages := if 1 <? pageCount then push (PageNumber pageCount) pages else pages in
    pages.

(** The [n] integers from [lo] on. *)
Fixpoint zseq (lo : Z) (n : nat) : list Z :=
  match n with
  | O => []
  | S n' => lo :: zseq (lo + 1) n'
  end.

(** The page numbers among the items, in order. *)
Fixpoint numbers (pages : list pageItem) : list Z :=
  match pages with
  | [] => []
  | PageNumber n :: rest => n :: numbers rest
  | Ellipsis :: rest => numbers rest
  end.

End NotesPagination.

(** ** Substrings, case ignored *)

Module Matching.

(** A capital letter of the alphabet, A to Z. *)
Definition capital (c : ascii) : Prop := 65 <= Js.code c <= 90.

(** Two characters that are the same letter, in either case: the same
    character, or a capital letter and its small letter (32 codes further,
    as "a" is from "A"). *)
Definition sameLetter (c d : ascii) : Prop :=
  c = d \/
  (capital c /\ Js.code d = Js.code c + 32) \/
  (capital d /\ Js.code c = Js.code d + 32).

(** A string of ASCII characters (codes below 128).  On such strings
    [toLowerCase] changes the letters A to Z only and [trim] strips the
    six characters of [Js.isWhiteSpace] only, as the model has them. *)
Fixpoint isAscii (s : string) : Prop :=
  match s with
  | EmptyString => True
  | String c t => Js.code c < 128 /\ isAscii t
  end.

(** Two strings that differ by the case of their letters only. *)
Inductive sameIgnoringCase : string -> string -> Prop :=
| same_empty : sameIgnoringCase EmptyString EmptyString
| same_cons (c d : ascii) (s t : string) :
    sameLetter c d -> sameIgnoringCase s t ->
    sameIgnoringCase (String c s) (String d t).

(** [q] occurs in [s], the case of the letters ignored. *)
Definition containsIgnoringCase (s q : string) : Prop :=
  exists pre mid post : string,
    s = (pre ++ mid ++ post)%string /\ sameIgnoringCase mid q.

End Matching.

(** ** Numbers as strings *)

Module JsNumber.
Import Js.

(** The character of a decimal digit. *)
Definition digitChar (d : Z) : ascii := ascii_of_nat (48 + Z.to_nat d).

(** The decimal digits of [n >= 0] put before [acc], the last digit
    first; [fuel] bounds the number of digits. *)
Fixpoint digits (fuel : nat) (n : Z) (acc : string) : string :=
  match fuel with
  | O => acc
  | S fuel' =>
      let acc' := String (digitChar (n mod 10)) acc in
      if n <? 10 then acc' else digits fuel' (n / 10) acc'
  end.

(** A number of digits that is enough for [n]. *)
Definition digitsFuel (n : Z) : nat := S (Z.to_nat (Z.log2 n)).

(** [n.toString()] for the integers the code prints (below 10^21
    JavaScript prints all the digits of an integer). *)
Definition toString (n : number) : string :=
  match n with
  | NaN => "NaN"
  | Num z =>
      if z <? 0 then String "-" (digits (digitsFuel (- z)) (- z) "")
      else digits (digitsFuel z) z ""
  end.

End JsNumber.

(** ** Page navigation (components/notes/pagination.client.tsx) *)

Module PageNavigation.
Import Js.

(** [createPageUrl]: the URL is [/dashboard/notes?] followed by the
    current search parameters with [page] set; modelled by the parameters
    of that URL. *)
Definition createPageUrl (searchParams : Params.t) (page : Z) : Params.t :=
  Params.mk (Params.q searchParams) (Params.category searchParams)
    (Some (JsNumber.toString (Num page)))
    (Params.pageSize searchParams) (Params.includeArchived searchParams).

(** [handlePageChange]: the parameters [router.push] navigates to, or
    [None] when the function returns without navigating. *)
Definition handlePageChange (searchParams : Params.t) (pageCount page : Z)
    : option Params.t :=
  if (page <? 1) || (pageCount <? page) then None
  else Some (createPageUrl searchParams page).

(** What can be clicked in the component: the previous and next buttons
    and the link of a page number. *)
Inductive control : Type :=
| Previous : control
| Link (page : Z) : control
| Next : control.

(** The [onClick] handlers. *)
Definition click (searchParams : Params.t) (currentPage pageCount : Z)
    (c : control) : option Params.t :=
  match c with
  | Previous => handlePageChange searchParams pageCount (currentPage - 1)
  | Link page => handlePageChange searchParams pageCount page
  | Next => handlePageChange searchParams pageCount (currentPage + 1)
  end.

(** The buttons that are styled as disabled ([pointer-events-none]). *)
Definition disabled (currentPage pageCount : Z) (c : control) : bool :=
  match c with
  | Previous => currentPage =? 1
  | Link _ => false
  | Next => currentPage =? pageCount
  end.

(** The controls the component renders: nothing when there is one page at
    most, else the previous button, a link per page number of
    [getPageNumbers] and the next button. *)
Definition controls (currentPage pageCount : Z) : list control :=
  if pageCount <=? 1 then []
  else Previous
       :: map Link (NotesPagination.numbers
                      (NotesPagination.getPageNumbers currentPage pageCount))
       ++ [Next].

End PageNavigation.

(** ** The toolbar as the page mounts it *)

Module ToolbarProps.
Import Js.

(** The state of the toolbar that the page renders: [initialSearch],
    [initialCategory] and [initialIncludeArchived] are what the page parsed. *)
Definition initial (sp : Params.t) : NotesToolbar.state :=
  NotesToolbar.mkState (NotesPage.searchQuery sp) (NotesPage.categoryId sp)
    (NotesPage.includeArchived sp).

(** The value the select shows: [category || "all"]. *)
Definition selectValue (st : NotesToolbar.state) : string :=
  orElse (NotesToolbar.category st) "all".

(** [handleSearchChange] and [handleArchiveToggle]. *)
Definition handleSearchChange (value : string) (st : NotesToolbar.state)
    : NotesToolbar.state :=
  NotesToolbar.mkState value (NotesToolbar.category st)
    (NotesToolbar.includeArchived st).

Definition handleArchiveToggle (checked : bool) (st : NotesToolbar.state)
    : NotesToolbar.state :=
  NotesToolbar.mkState (NotesToolbar.search st) (NotesToolbar.category st) checked.

End ToolbarProps.

(** ** The grid of notes (components/notes/notes-grid.tsx) *)

Module Grid.

(** A [Map] with string keys, in insertion order. *)
Definition jsMap (V : Type) : Type := list (string * V).

(** [m.set(k, v)]: the value of an existing key is replaced in place. *)
Fixpoint mapSet {V : Type} (k : string) (v : V) (m : jsMap V) : jsMap V :=
  match m with
  | [] => [(k, v)]
  | (k', v') :: rest =>
      if String.eqb k' k then (k, v) :: rest else (k', v') :: mapSet k v rest
  end.

(** [m.get(k)]. *)
Fixpoint mapGet {V : Type} (k : string) (m : jsMap V) : option V :=
  match m with
  | [] => None
  | (k', v) :: rest => if String.eqb k' k then Some v else mapGet k rest
  end.

(** [new Map(entries)]: the entries are set one after the other. *)
Definition newMap {V : Type} (entries : list (string * V)) : jsMap V :=
  fold_left (fun m e => mapSet (fst e) (snd e) m) entries [].

Definition categoryMap (categories : list Category.t) : jsMap Category.t :=
  newMap (map (fun cat => (Category.id cat, cat)) categories).

(** The category a card gets:
    [note.categoryId ? categoryMap.get(note.categoryId) : null], and
    [undefined] for none. *)
Definition cardCategory (categories : list Category.t) (note : Note.t)
    : option Category.t :=
  match Note.categoryId note with
  | None | Some EmptyString => None
  | Some c => mapGet c (categoryMap categories)
  end.

(** The cards of the grid, in the order of the notes. *)
Definition cards (notes : list Note.t) (categories : list Category.t)
    : list (Note.t * option Category.t) :=
  map (fun note => (note, cardCategory categories note)) notes.

End Grid.

(** ** The card of a note (components/notes/note-card.client.tsx) *)

Module NoteCard.
Import Js.

(** [s.substring(0, n)]. *)
Definition substring0 (n : nat) (s : string) : string := String.substring 0 n s.

Definition contentPreview (note : Note.t) : string :=
  if 150 <? strlen (Note.content note)
  then (substring0 150 (Note.content note) ++ "...")%string
  else Note.content note.

(** The text of the card: [contentPreview || "No content"]. *)
Definition previewText (note : Note.t) : string :=
  orElse (Some (contentPreview note)) "No content".

(** [handleCardClick]: the path [router.push] goes to. *)
Definition handleCardClick (note : Note.t) : string :=
  ("/dashboard/notes/" ++ Note.id note)%string.

(** The color of the dot of the category. *)
Definition dotColor (category : Category.t) : Colors.value :=
  Colors.getCategoryColor (Category.color category).

End NoteCard.

(** ** The editor page (app/dashboard/notes/[id]/page.tsx) *)

Module NoteEditorPage.

(** [getMockNote]; [now] is the value of [Date.now()]. *)
Definition getMockNote (now : Z) (id : string) : option Note.t :=
  find (fun note => String.eqb (Note.id note) id)
    [ Note.mk "1" "Welcome to Notes"
        "This is your first note. Start writing and organizing your thoughts!"
        None true false now;
      Note.mk "2" "Project Ideas" "Here are some ideas for new projects..."
        (Some "cat-1") false false (now - 86400000);
      Note.mk "3" "Meeting Notes" "Discussed the new features and timeline..."
        (Some "cat-2") false false (now - 172800000) ].

(** What the page does: the editor of the note, or [notFound()]. *)
Inductive outcome : Type :=
| Editor (initialNote : Note.t) : outcome
| NotFound : outcome.

Definition NoteEditorPage (now : Z) (id : string) : outcome :=
  match getMockNote now id with
  | Some note => Editor note
  | None => NotFound
  end.

End NoteEditorPage.

(** ** More sample data *)

Module MoreSamples.

(** Twelve notes, none pinned or archived, updated one after the other. *)
Definition numbered (k : nat) : Note.t :=
  Note.mk (JsNumber.toString (Js.Num (Z.of_nat k))) "Note" "Body" None
    false false (Z.of_nat k).

Definition manyNotes : list Note.t := map numbered (seq 1 12).

(** The second page of five notes. *)
Definition secondPage : Params.t := Params.mk None None (Some "2") (Some "5") None.

End MoreSamples.

(** ** Page numbers and gaps *)

Module Spacing.
Import NotesPagination.

(** The items after page [prev] are well spaced: a page number follows the
    page before it directly, and an ellipsis stands between two page numbers
    with at least one page left out. *)
Fixpoint wellSpaced (prev : Z) (items : list pageItem) : Prop :=
  match items with
  | [] => True
  | PageNumber n :: rest => n = prev + 1 /\ wellSpaced n rest
  | Ellipsis :: PageNumber n :: rest => prev + 1 < n /\ wellSpaced n rest
  | Ellipsis :: _ => False
  end.

End Spacing.

(** ** Examples *)

Example parseInt_ex1 : Js.parseInt "42" = Js.Num 42. Proof. reflexivity. Qed.
Example parseInt_ex2 : Js.parseInt "  -7px" = Js.Num (-7). Proof. reflexivity. Qed.
Example parseInt_ex3 : Js.parseInt "0x1f" = Js.Num 31. Proof. reflexivity. Qed.
Example parseInt_ex4 : Js.parseInt "abc" = Js.NaN. Proof. reflexivity. Qed.
Example parseInt_ex5 : Js.parseInt "" = Js.NaN. Proof. reflexivity. Qed.
Example trim_ex1 : Js.trim "  a b  " = "a b". Proof. reflexivity. Qed.
Example includes_ex1 : Js.includes "hello" "ell" = true. Proof. reflexivity. Qed.
Example includes_ex2 : Js.includes "hello" "" = true. Proof. reflexivity. Qed.
Example lower_ex1 : Js.toLowerCase "Hello World" = "hello world". Proof. reflexivity. Qed.

Example pages_ex1 :
  NotesPagination.getPageNumbers 5 10
  = [NotesPagination.PageNumber 1; NotesPagination.Ellipsis; NotesPagination.PageNumber 4; NotesPagination.PageNumber 5;
                     NotesPagination.PageNumber 6; NotesPagination.Ellipsis; NotesPagination.PageNumber 10].
Proof. reflexivity. Qed.

Example pages_ex2 :
  NotesPagination.getPageNumbers 1 6
  = [NotesPagination.PageNumber 1; NotesPagination.PageNumber 2; NotesPagination.Ellipsis; NotesPagination.PageNumber 6].
Proof. reflexivity. Qed.

Example pages_ex3 :
  NotesPagination.getPageNumbers 2 3
  = [NotesPagination.PageNumber 1; NotesPagination.PageNumber 2; NotesPagination.PageNumber 3].
Proof. reflexivity. Qed.

Example color_ex1 : Colors.getCategoryColor "blue" = Colors.Str "#3b82f6".
Proof. reflexivity. Qed.

Example color_ex2 : Colors.getCategoryColor "teal" = Colors.Str "#64748b".
Proof. reflexivity. Qed.

Example toString_ex1 : JsNumber.toString (Js.Num 120) = "120". Proof. reflexivity. Qed.
Example toString_ex2 : JsNumber.toString (Js.Num 0) = "0". Proof. reflexivity. Qed.
Example toString_ex3 : JsNumber.toString (Js.Num (-45)) = "-45". Proof. reflexivity. Qed.
Example toString_ex4 : JsNumber.toString (Js.Num 1000000) = "1000000". Proof. reflexivity. Qed.

Example page_mock :
  map Note.id (NotesPage.paginatedNotes (NotesPage.getMockNotes 1000000000) Params.empty)
  = ["1"; "2"; "3"].
Proof. reflexivity. Qed.

(** ** The runtime model: sorting and slicing *)

Section SortFacts.
Context {A : Type} (cmp : A -> A -> Z).

Hypothesis cmp_total : forall a b, Js.before cmp a b \/ Js.before cmp b a.
Hypothesis cmp_trans : forall a b c, Js.before cmp a b -> Js.before cmp b c -> Js.before cmp a c.

Lemma insert_perm (x : A) (l : list A) : Permutation (x :: l) (Js.insert cmp x l).
Proof.
  induction l as [|y t IH]; simpl.
  - apply Permutation_refl.
  - destruct (cmp x y <=? 0).
    + apply Permutation_refl.
    + eapply perm_trans; [apply perm_swap|]. now apply perm_skip.
Qed.

Lemma sort_perm (l : list A) : Permutation l (Js.sort cmp l).
Proof.
  induction l as [|x t IH]; simpl.
  - constructor.
  - eapply perm_trans; [|apply insert_perm]. now apply perm_skip.
Qed.

Lemma insert_Forall (P : A -> Prop) (x : A) (l : list A) :
  P x -> Forall P l -> Forall P (Js.insert cmp x l).
Proof.
  intros Hx Hl. induction Hl as [|y t Hy Ht IH]; simpl.
  - repeat constructor; assumption.
  - destruct (cmp x y <=? 0); repeat constructor; assumption.
Qed.

Lemma insert_sorted (x : A) (l : list A) :
  StronglySorted (Js.before cmp) l -> StronglySorted (Js.before cmp) (Js.insert cmp x l).
Proof.
  induction 1 as [|y t Ht IH Hy]; simpl.
  - repeat constructor.
  - destruct (cmp x y <=? 0) eqn:E.
    + apply Z.leb_le in E. constructor.
      * constructor; assumption.
      * constructor; [exact E|].
        eapply Forall_impl; [|exact Hy]. intros z Hz. now apply cmp_trans with y.
    + apply Z.leb_gt in E. constructor; [exact IH|].
      apply insert_Forall; [|exact Hy].
      destruct (cmp_total y x) as [H|H]; [exact H|]. unfold Js.before in H. lia.
Qed.

Lemma sort_sorted (l : list A) : StronglySorted (Js.before cmp) (Js.sort cmp l).
Proof.
  induction l as [|x t IH]; simpl; [constructor|]. now apply insert_sorted.
Qed.

End SortFacts.

Section ListFacts.
Context {A : Type}.

Lemma sorted_skipn (R : A -> A -> Prop) (n : nat) (l : list A) :
  StronglySorted R l -> StronglySorted R (skipn n l).
Proof.
  revert l. induction n as [|n IH]; intros l H; simpl; [exact H|].
  destruct l as [|x t]; [constructor|]. apply IH. now inversion H.
Qed.

Lemma Forall_firstn (P : A -> Prop) (n : nat) (l : list A) :
  Forall P l -> Forall P (firstn n l).
Proof.
  revert l. induction n as [|n IH]; intros l H; simpl; [constructor|].
  destruct H; constructor; auto.
Qed.

Lemma Forall_skipn (P : A -> Prop) (n : nat) (l : list A) :
  Forall P l -> Forall P (skipn n l).
Proof.
  revert l. induction n as [|n IH]; intros l H; simpl; [exact H|].
  destruct H; [constructor|auto].
Qed.

Lemma sorted_firstn (R : A -> A -> Prop) (n : nat) (l : list A) :
  StronglySorted R l -> StronglySorted R (firstn n l).
Proof.
  revert l. induction n as [|n IH]; intros l H; simpl; [constructor|].
  destruct H as [|x t Ht Hx]; constructor; auto using Forall_firstn.
Qed.

Lemma slice_sorted (R : A -> A -> Prop) (l : list A) (s e : Js.number) :
  StronglySorted R l -> StronglySorted R (Js.slice l s e).
Proof. intro H. unfold Js.slice. now apply sorted_firstn, sorted_skipn. Qed.

Lemma slice_Forall (P : A -> Prop) (l : list A) (s e : Js.number) :
  Forall P l -> Forall P (Js.slice l s e).
Proof. intro H. unfold Js.slice. now apply Forall_firstn, Forall_skipn. Qed.

(** A slice that starts at or after the end of the array is empty. *)
Lemma slice_beyond (l : list A) (s e : Z) :
  Z.of_nat (List.length l) <= s -> Js.slice l (Js.Num s) (Js.Num e) = [].
Proof.
  intro H. unfold Js.slice; simpl.
  destruct (s <? 0) eqn:Es; [apply Z.ltb_lt in Es; lia|].
  rewrite (Z.min_r s) by lia.
  rewrite skipn_all2 by lia. now rewrite firstn_nil.
Qed.

Lemma sorted_nth (R : A -> A -> Prop) (l : list A) :
  StronglySorted R l ->
  forall (i j : nat) (a b : A),
    (i < j)%nat -> nth_error l i = Some a -> nth_error l j = Some b -> R a b.
Proof.
  induction 1 as [|x t Ht IH Hx]; intros i j a b Hij Ha Hb.
  - destruct i; discriminate.
  - destruct j as [|j]; [lia|]. simpl in Hb. destruct i as [|i]; simpl in Ha.
    + injection Ha as <-. rewrite Forall_forall in Hx. apply Hx.
      eapply nth_error_In; eassumption.
    + apply (IH i j); [lia|assumption..].
Qed.

End ListFacts.

(** ** The listing *)

Module ListingFacts.
Import Js NotesPage Samples.

Lemma compareNotes_total (a b : Note.t) :
  before compareNotes a b \/ before compareNotes b a.
Proof.
  unfold before, compareNotes.
  destruct (Note.isPinned a), (Note.isPinned b); simpl; lia.
Qed.

Lemma compareNotes_trans (a b c : Note.t) :
  before compareNotes a b -> before compareNotes b c -> before compareNotes a c.
Proof.
  unfold before, compareNotes.
  destruct (Note.isPinned a), (Note.isPinned b), (Note.isPinned c); simpl; lia.
Qed.

(** What [before compareNotes] says of two notes. *)
Lemma before_compareNotes (a b : Note.t) :
  before compareNotes a b ->
  (Note.isPinned b = true -> Note.isPinned a = true) /\
  (Note.isPinned a = Note.isPinned b -> Note.updatedAt b <= Note.updatedAt a).
Proof.
  unfold before, compareNotes.
  destruct (Note.isPinned a), (Note.isPinned b); simpl; intro H; split;
    intros; try discriminate; try reflexivity; lia.
Qed.

Lemma filteredNotes_sorted (allNotes : list Note.t) (sp : Params.t) :
  StronglySorted (before compareNotes) (filteredNotes allNotes sp).
Proof.
  apply sort_sorted; [apply compareNotes_total | apply compareNotes_trans].
Qed.

(** The notes of the listing are those of [allNotes] that the filter
    keeps, each as often as it is there. *)
Lemma filteredNotes_perm (allNotes : list Note.t) (sp : Params.t) :
  Permutation (filter (keep sp) allNotes) (filteredNotes allNotes sp).
Proof. apply sort_perm. Qed.

Lemma filteredNotes_Forall (P : Note.t -> Prop) (allNotes : list Note.t) (sp : Params.t) :
  (forall n, In n allNotes -> keep sp n = true -> P n) ->
  Forall P (filteredNotes allNotes sp).
Proof.
  intro H. apply Forall_forall. intros n Hn.
  apply (Permutation_in _ (Permutation_sym (filteredNotes_perm allNotes sp))) in Hn.
  apply filter_In in Hn. destruct Hn. auto.
Qed.

(** C1: in every page of the listing a pinned note never comes after an
    unpinned one, and of two notes that are both pinned or both unpinned the
    one listed first was updated last (its [updatedAt] is the greater or
    equal one). *)
Theorem listing_order (allNotes : list Note.t) (sp : Params.t)
    (i j : nat) (a b : Note.t) :
  (i < j)%nat ->
  nth_error (paginatedNotes allNotes sp) i = Some a ->
  nth_error (paginatedNotes allNotes sp) j = Some b ->
  (Note.isPinned b = true -> Note.isPinned a = true) /\
  (Note.isPinned a = Note.isPinned b -> Note.updatedAt b <= Note.updatedAt a).
Proof.
  intros Hij Ha Hb. apply before_compareNotes.
  eapply sorted_nth; [|exact Hij|exact Ha|exact Hb].
  apply slice_sorted, filteredNotes_sorted.
Qed.

Lemma listing_order_witness :
  (Note.isPinned noteGroceries = true -> Note.isPinned noteReadMe = true) /\
  (Note.isPinned noteReadMe = Note.isPinned noteGroceries ->
   Note.updatedAt noteGroceries <= Note.updatedAt noteReadMe).
Proof.
  apply (listing_order sampleNotes Params.empty 0 1 noteReadMe noteGroceries);
    [lia | reflexivity | reflexivity].
Defined.

(** *** Page and page size *)

Lemma page_missing (sp : Params.t) :
  Params.page sp = None \/ Params.page sp = Some "" -> page sp = Num 1.
Proof. unfold page. intros [H|H]; rewrite H; reflexivity. Qed.

Lemma pageSize_missing (sp : Params.t) :
  Params.pageSize sp = None \/ Params.pageSize sp = Some "" -> pageSize sp = Num 20.
Proof. unfold pageSize. intros [H|H]; rewrite H; reflexivity. Qed.

(** When the parameter starts with an integer, the page is that integer,
    or 1 when it is less. *)
Lemma page_numeric (sp : Params.t) (z : Z) :
  parseInt (orElse (Params.page sp) "1") = Num z -> page sp = Num (Z.max z 1).
Proof. unfold page. intros ->. reflexivity. Qed.

Lemma page_at_least_1 (sp : Params.t) :
  page sp = NaN \/ exists p, page sp = Num p /\ 1 <= p.
Proof.
  unfold page. destruct (parseInt _) as [|z]; [now left|right].
  exists (Z.max z 1). split; [reflexivity|lia].
Qed.

Lemma pageSize_numeric (sp : Params.t) (z : Z) :
  parseInt (orElse (Params.pageSize sp) "20") = Num z ->
  pageSize sp = Num (Z.min (Z.max z 5) 100).
Proof. unfold pageSize. intros ->. reflexivity. Qed.

Lemma pageSize_range (sp : Params.t) :
  pageSize sp = NaN \/ exists ps, pageSize sp = Num ps /\ 5 <= ps <= 100.
Proof.
  unfold pageSize. destruct (parseInt _) as [|z]; [now left|right].
  exists (Z.min (Z.max z 5) 100). split; [reflexivity|lia].
Qed.

(** The page is [NaN] exactly when [parseInt] finds no integer. *)
Lemma page_NaN (sp : Params.t) :
  page sp = NaN <-> parseInt (orElse (Params.page sp) "1") = NaN.
Proof. unfold page. destruct (parseInt _); simpl; split; congruence. Qed.

(** C2: for the non-numeric parameters [page=abc] and [pageSize=abc] the
    page and the page size are [NaN]: neither an integer that is at least
    1 nor one between 5 and 100. *)
Theorem page_non_numeric :
  page (Params.mk None None (Some "abc") None None) = NaN /\
  pageSize (Params.mk None None None (Some "abc") None) = NaN.
Proof. split; reflexivity. Qed.

(** *** The archive filter *)

Lemma includeArchived_true (sp : Params.t) :
  includeArchived sp = true <-> Params.includeArchived sp = Some "true".
Proof.
  unfold includeArchived. destruct (Params.includeArchived sp) as [s|].
  - rewrite String.eqb_eq. split; congruence.
  - split; discriminate.
Qed.

(** C6: unless the parameter [includeArchived] is the string "true", no
    note of the listing is archived. *)
Theorem archived_excluded (allNotes : list Note.t) (sp : Params.t) :
  Params.includeArchived sp <> Some "true" ->
  Forall (fun n => Note.isArchived n = false) (paginatedNotes allNotes sp).
Proof.
  intro H. apply slice_Forall, filteredNotes_Forall. intros n _ Hk.
  assert (E : includeArchived sp = false).
  { destruct (includeArchived sp) eqn:E; [|reflexivity].
    apply includeArchived_true in E. contradiction. }
  unfold keep in Hk. rewrite E in Hk. simpl in Hk.
  destruct (Note.isArchived n); [discriminate|reflexivity].
Qed.

Lemma archived_excluded_witness :
  Forall (fun n => Note.isArchived n = false)
    (paginatedNotes sampleNotes (Params.mk None None None None (Some "yes"))).
Proof. apply archived_excluded. simpl. discriminate. Defined.

(** *** Page count and pages beyond the end *)

Lemma ceil_bounds (t ps : Z) :
  0 < ps -> (- ((- t) / ps) - 1) * ps < t <= - ((- t) / ps) * ps.
Proof.
  intro Hps.
  pose proof (Z.div_mod (- t) ps ltac:(lia)) as Hd.
  pose proof (Z.mod_pos_bound (- t) ps Hps) as Hm.
  nia.
Qed.

(** C5: with [t] notes in the listing and a page size [ps] (an integer
    from 5 to 100), the page count is [max c 1], where [c] is the ceiling of
    [t / ps], that is the integer with [(c - 1) * ps < t <= c * ps]; it is 1
    when there is no note. *)
Theorem pageCount_spec (allNotes : list Note.t) (sp : Params.t) (t ps : Z) :
  total allNotes sp = Num t ->
  pageSize sp = Num ps ->
  exists c : Z,
    (c - 1) * ps < t <= c * ps /\
    pageCount allNotes sp = Num (Z.max c 1) /\
    (t = 0 -> pageCount allNotes sp = Num 1).
Proof.
  intros Ht Hps. exists (- ((- t) / ps)).
  assert (Hr : 5 <= ps <= 100).
  { destruct (pageSize_range sp) as [E|(ps' & E & Hr)]; congruence. }
  unfold pageCount. rewrite Ht, Hps. simpl.
  split; [apply ceil_bounds; lia|]. split; [reflexivity|].
  intros ->. reflexivity.
Qed.

Lemma pageCount_spec_witness :
  exists c : Z,
    (c - 1) * 20 < 3 <= c * 20 /\
    pageCount (getMockNotes 1700000000000) Params.empty = Num (Z.max c 1) /\
    (3 = 0 -> pageCount (getMockNotes 1700000000000) Params.empty = Num 1).
Proof.
  apply (pageCount_spec (getMockNotes 1700000000000) Params.empty 3 20);
    reflexivity.
Defined.

Lemma total_length (allNotes : list Note.t) (sp : Params.t) (t : Z) :
  total allNotes sp = Num t -> t = Z.of_nat (List.length (filteredNotes allNotes sp)).
Proof. unfold total. congruence. Qed.

(** C8: when the page is [p], the page size [ps] and [(p - 1) * ps] is at
    least the number [t] of matching notes, the page has no note, and the
    page renders the empty state. *)
Theorem page_beyond_end (allNotes : list Note.t) (sp : Params.t) (p ps t : Z) :
  page sp = Num p ->
  pageSize sp = Num ps ->
  total allNotes sp = Num t ->
  t <= (p - 1) * ps ->
  paginatedNotes allNotes sp = [] /\
  exists hasSearch, render allNotes sp = EmptyState hasSearch.
Proof.
  intros Hp Hps Ht Hle. apply total_length in Ht.
  assert (E : paginatedNotes allNotes sp = []).
  { unfold paginatedNotes, startIndex. rewrite Hp, Hps. simpl.
    apply slice_beyond. lia. }
  split; [exact E|]. unfold render. rewrite E. eexists. reflexivity.
Qed.

Lemma page_beyond_end_witness :
  paginatedNotes (getMockNotes 1700000000000)
    (Params.mk None None (Some "2") None None) = [] /\
  exists hasSearch,
    render (getMockNotes 1700000000000) (Params.mk None None (Some "2") None None)
    = EmptyState hasSearch.
Proof.
  apply (page_beyond_end (getMockNotes 1700000000000)
           (Params.mk None None (Some "2") None None) 2 20 3);
    [reflexivity | reflexivity | reflexivity | lia].
Defined.

End ListingFacts.

(** ** Searching *)

Module MatchingFacts.
Import Js Matching.

Lemma prefix_app (q s : string) :
  String.prefix q s = true <-> exists post, s = (q ++ post)%string.
Proof.
  revert s. induction q as [|c q IH]; intro s; simpl.
  - split; [intros _; now exists s | intros _; destruct s; reflexivity].
  - destruct s as [|d s]; simpl.
    + split; [discriminate | intros [post H]; discriminate].
    + destruct (ascii_dec c d) as [->|Hn].
      * rewrite IH. split; intros [post H]; exists post; congruence.
      * split; [discriminate | intros [post H]; congruence].
Qed.

Lemma includes_app (s q : string) :
  includes s q = true <-> exists pre post, s = (pre ++ q ++ post)%string.
Proof.
  induction s as [|c s IH]; cbn [includes]; rewrite orb_true_iff, prefix_app.
  - split.
    + intros [[post H]|H]; [|discriminate]. now exists EmptyString, post.
    + intros (pre & post & H). left. destruct pre; [now exists post|discriminate].
  - rewrite IH. split.
    + intros [[post H]|(pre & post & H)].
      * now exists EmptyString, post.
      * exists (String c pre), post. simpl. now rewrite H.
    + intros (pre & post & H). destruct pre as [|d pre]; simpl in H.
      * left. now exists post.
      * right. exists pre, post. congruence.
Qed.

Lemma toLowerCase_app (a b : string) :
  toLowerCase (a ++ b) = (toLowerCase a ++ toLowerCase b)%string.
Proof. induction a as [|c a IH]; simpl; [reflexivity|now rewrite IH]. Qed.

Lemma toLowerCase_split (s x y : string) :
  toLowerCase s = (x ++ y)%string ->
  exists a b, s = (a ++ b)%string /\ toLowerCase a = x /\ toLowerCase b = y.
Proof.
  revert s. induction x as [|c x IH]; intros s H; simpl in H.
  - now exists EmptyString, s.
  - destruct s as [|d s]; [discriminate|]. simpl in H.
    injection H as Hc Hs. destruct (IH s Hs) as (a & b & -> & Ha & Hb).
    exists (String d a), b. simpl. now rewrite Ha, Hc.
Qed.

(** The code of a character in lower case. *)
Lemma code_lowerChar (c : ascii) :
  code (lowerChar c)
  = if (65 <=? code c) && (code c <=? 90) then code c + 32 else code c.
Proof.
  destruct c as [b0 b1 b2 b3 b4 b5 b6 b7].
  destruct b0, b1, b2, b3, b4, b5, b6, b7; reflexivity.
Qed.

Lemma code_inj (c d : ascii) : code c = code d -> c = d.
Proof.
  unfold code. intro H. apply Nat2Z.inj in H.
  rewrite <- (ascii_nat_embedding c), <- (ascii_nat_embedding d). now rewrite H.
Qed.

(** Two characters are the same letter exactly when they are the same
    character once in lower case. *)
Lemma sameLetter_lower (c d : ascii) :
  sameLetter c d <-> lowerChar c = lowerChar d.
Proof.
  unfold sameLetter, capital. split.
  - intro H. apply code_inj. rewrite !code_lowerChar.
    destruct ((65 <=? code c) && (code c <=? 90)) eqn:Ec,
             ((65 <=? code d) && (code d <=? 90)) eqn:Ed;
      rewrite ?andb_true_iff, ?andb_false_iff, ?Z.leb_le, ?Z.leb_gt in Ec, Ed;
      destruct H as [->|[H|H]]; lia.
  - intro H. apply (f_equal code) in H. rewrite !code_lowerChar in H.
    destruct ((65 <=? code c) && (code c <=? 90)) eqn:Ec,
             ((65 <=? code d) && (code d <=? 90)) eqn:Ed;
      rewrite ?andb_true_iff, ?andb_false_iff, ?Z.leb_le, ?Z.leb_gt in Ec, Ed.
    + left. apply code_inj. lia.
    + right. left. lia.
    + right. right. lia.
    + left. now apply code_inj.
Qed.

Lemma sameIgnoringCase_lower (a b : string) :
  sameIgnoringCase a b <-> toLowerCase a = toLowerCase b.
Proof.
  split.
  - induction 1 as [|c d s t Hcd Hst IH]; simpl; [reflexivity|].
    apply sameLetter_lower in Hcd. now rewrite Hcd, IH.
  - revert b. induction a as [|c a IH]; intros [|d b] H; simpl in H;
      try discriminate; [constructor|].
    injection H as Hc Hs. constructor; [now apply sameLetter_lower|now apply IH].
Qed.

(** [includes], on the two strings in lower case, finds the occurrences
    of [q] in [s] whatever the case of the letters. *)
Lemma includes_ignoring_case (s q : string) :
  includes (toLowerCase s) (toLowerCase q) = true <-> containsIgnoringCase s q.
Proof.
  rewrite includes_app. unfold containsIgnoringCase. split.
  - intros (pre & post & H).
    apply toLowerCase_split in H. destruct H as (a & r & -> & Ha & Hr).
    apply toLowerCase_split in Hr. destruct Hr as (m & b & -> & Hm & Hb).
    exists a, m, b. split; [reflexivity|]. now apply sameIgnoringCase_lower.
  - intros (pre & mid & post & -> & H). apply sameIgnoringCase_lower in H.
    exists (toLowerCase pre), (toLowerCase post).
    now rewrite !toLowerCase_app, H.
Qed.

Lemma trimStart_length (s : string) : strlen (trimStart s) <= strlen s.
Proof.
  unfold strlen. induction s as [|c s IH]; simpl; [lia|].
  destruct (isWhiteSpace c); simpl; lia.
Qed.

Lemma trimEnd_length (s : string) : strlen (trimEnd s) <= strlen s.
Proof.
  unfold strlen. induction s as [|c s IH]; simpl; [lia|].
  destruct (trimEnd s); [destruct (isWhiteSpace c)|]; simpl in *; lia.
Qed.

Lemma trim_length (s : string) : strlen (trim s) <= strlen s.
Proof.
  unfold trim. pose proof (trimEnd_length (trimStart s)).
  pose proof (trimStart_length s). lia.
Qed.

End MatchingFacts.

(** ** The filters of the listing *)

Module FilterFacts.
Import Js NotesPage Matching Samples.

Lemma in_filteredNotes (allNotes : list Note.t) (sp : Params.t) (n : Note.t) :
  In n (filteredNotes allNotes sp) <-> In n allNotes /\ keep sp n = true.
Proof.
  rewrite <- filter_In. split; apply Permutation_in.
  - apply Permutation_sym, ListingFacts.filteredNotes_perm.
  - apply ListingFacts.filteredNotes_perm.
Qed.

Lemma differ_false (a : option string) (c : string) :
  differ a (Some c) = false <-> a = Some c.
Proof.
  destruct a as [x|]; simpl.
  - rewrite negb_false_iff, String.eqb_eq. split; congruence.
  - split; discriminate.
Qed.

Lemma searchQuery_long (sp : Params.t) (q : string) :
  Params.q sp = Some q -> 2 <= strlen (trim q) -> searchQuery sp = q.
Proof.
  unfold searchQuery. intros -> H. destruct q; [|reflexivity].
  compute in H. now contradiction H.
Qed.

(** The query as it comes in the URL: when its trimmed length is two or
    more, a note that the archive and category filters let through is in the
    filtered set if and only if the query, untrimmed, occurs in its title or
    in its content, the case of the letters ignored. *)
Lemma received_query_matches (allNotes : list Note.t) (sp : Params.t) (q : string)
    (note : Note.t) :
  Params.q sp = Some q ->
  2 <= strlen (trim q) ->
  In note allNotes ->
  (Note.isArchived note = true -> Params.includeArchived sp = Some "true") ->
  (forall c, categoryId sp = Some c -> Note.categoryId note = Some c) ->
  In note (filteredNotes allNotes sp) <->
  containsIgnoringCase (Note.title note) q \/
  containsIgnoringCase (Note.content note) q.
Proof.
  intros Hq Hlen Hin Harch Hcat.
  rewrite in_filteredNotes, <- !MatchingFacts.includes_ignoring_case, <- orb_true_iff.
  assert (E1 : negb (includeArchived sp) && Note.isArchived note = false).
  { destruct (Note.isArchived note); [|apply andb_false_r].
    apply ListingFacts.includeArchived_true in Harch; [|reflexivity].
    now rewrite Harch. }
  assert (E2 : match categoryId sp with
               | Some c => differ (Note.categoryId note) (Some c)
               | None => false
               end = false).
  { destruct (categoryId sp) as [c|]; [|reflexivity].
    apply differ_false, Hcat. reflexivity. }
  assert (E3 : (2 <=? strlen (searchQuery sp)) = true).
  { rewrite (searchQuery_long sp q Hq Hlen). apply Z.leb_le.
    pose proof (MatchingFacts.trim_length q). lia. }
  unfold keep. rewrite E1, E2, E3, (searchQuery_long sp q Hq Hlen).
  tauto.
Qed.

(** C7: the query [" eggs "] is ["eggs"] once trimmed, which has four
    characters and occurs in the content of the sample note "Groceries"; the
    note is not archived and no category is asked for.  Yet the note is not
    in the filtered set for that query, while it is for the query ["eggs"]:
    the page matches the query untrimmed. *)
Theorem padded_query_misses_note :
  trim " eggs " = "eggs" /\
  2 <= strlen (trim " eggs ") /\
  Note.isArchived noteGroceries = false /\
  categoryId (Params.withQ (Some " eggs ") Params.empty) = None /\
  containsIgnoringCase (Note.content noteGroceries) (trim " eggs ") /\
  ~ In noteGroceries
      (filteredNotes sampleNotes (Params.withQ (Some " eggs ") Params.empty)) /\
  In noteGroceries
    (filteredNotes sampleNotes (Params.withQ (Some "eggs") Params.empty)).
Proof.
  split; [reflexivity|]. split; [vm_compute; discriminate|].
  split; [reflexivity|]. split; [reflexivity|]. split; [|split].
  - exists "Milk and ", "eggs", "". split; [reflexivity|].
    change (trim " eggs ") with "eggs".
    repeat constructor.
  - vm_compute. tauto.
  - vm_compute. tauto.
Qed.

(** C3: the query of two spaces has nothing left once trimmed, yet the
    listing of the mock notes is empty with it, and has the three notes
    without [q]. *)
Theorem blank_query_is_applied :
  strlen (trim "  ") = 0 /\
  paginatedNotes (getMockNotes 1700000000000)
    (Params.withQ (Some "  ") Params.empty) = [] /\
  paginatedNotes (getMockNotes 1700000000000) Params.empty
  = getMockNotes 1700000000000.
Proof. repeat split. Qed.

(** The toolbar does trim: it sends no [q] when the trimmed search has
    less than two characters, and the trimmed search else. *)
Lemma toolbar_trims (st : NotesToolbar.state) (sp : Params.t) :
  Params.q (NotesToolbar.updateURL st sp)
  = if 2 <=? strlen (trim (NotesToolbar.search st))
    then Some (trim (NotesToolbar.search st)) else None.
Proof. reflexivity. Qed.

(** The search is applied to the query as it comes, whenever it has two
    characters or more. *)
Lemma keep_short_query (sp : Params.t) (n : Note.t) :
  strlen (searchQuery sp) < 2 -> keep sp n = keep (Params.withQ None sp) n.
Proof.
  intro H. unfold keep. apply Z.ltb_lt in H. rewrite Z.leb_antisym.
  unfold searchQuery in *. simpl. rewrite H. simpl.
  reflexivity.
Qed.

(** *** The category filter *)

Lemma keep_withCategory (sp : Params.t) (c : string) (n : Note.t) :
  c <> "" ->
  keep (Params.withCategory (Some c) sp) n = true <->
  keep (Params.withCategory None sp) n = true /\ Note.categoryId n = Some c.
Proof.
  intro Hc. rewrite <- differ_false.
  destruct c as [|a c]; [contradiction|].
  unfold keep, includeArchived, categoryId, searchQuery. simpl.
  set (arch := andb _ _).
  destruct arch; [intuition discriminate|].
  destruct (differ (Note.categoryId n) (Some (String a c)));
    intuition discriminate.
Qed.

(** C4, as the code has it: a category parameter that is a non-empty
    string, "all" included, keeps exactly the notes of that category among
    those listed without the parameter; an empty parameter is the same as an
    absent one; and the toolbar turns the entry "all" of its select into an
    absent parameter. *)
Theorem category_filter (allNotes : list Note.t) (sp : Params.t) (c : string)
    (st : NotesToolbar.state) :
  c <> "" ->
  (forall n,
     In n (filteredNotes allNotes (Params.withCategory (Some c) sp)) <->
     In n (filteredNotes allNotes (Params.withCategory None sp)) /\
     Note.categoryId n = Some c) /\
  Forall (fun n => Note.categoryId n = Some c)
    (paginatedNotes allNotes (Params.withCategory (Some c) sp)) /\
  paginatedNotes allNotes (Params.withCategory (Some "") sp)
  = paginatedNotes allNotes (Params.withCategory None sp) /\
  Params.category
    (NotesToolbar.updateURL (NotesToolbar.handleCategoryChange "all" st) sp)
  = None.
Proof.
  intro Hc. split; [|split; [|split; reflexivity]].
  - intro n. rewrite !in_filteredNotes, (keep_withCategory sp c n Hc). tauto.
  - apply slice_Forall, ListingFacts.filteredNotes_Forall. intros n _ Hk.
    now apply (keep_withCategory sp c n Hc) in Hk.
Qed.

Lemma category_filter_witness :
  (forall n,
     In n (filteredNotes sampleNotes (Params.withCategory (Some "all") Params.empty)) <->
     In n (filteredNotes sampleNotes (Params.withCategory None Params.empty)) /\
     Note.categoryId n = Some "all") /\
  Forall (fun n => Note.categoryId n = Some "all")
    (paginatedNotes sampleNotes (Params.withCategory (Some "all") Params.empty)) /\
  paginatedNotes sampleNotes (Params.withCategory (Some "") Params.empty)
  = paginatedNotes sampleNotes (Params.withCategory None Params.empty) /\
  Params.category
    (NotesToolbar.updateURL
       (NotesToolbar.handleCategoryChange "all" (NotesToolbar.mkState "" (Some "cat-1") false))
       Params.empty)
  = None.
Proof. apply category_filter. discriminate. Defined.

(** C4 as stated fails: with [category=all] the listing of the mock notes
    is empty, and it has three notes without the parameter. *)
Lemma category_all_differs :
  paginatedNotes (getMockNotes 1700000000000)
    (Params.withCategory (Some "all") Params.empty)
  <> paginatedNotes (getMockNotes 1700000000000)
       (Params.withCategory None Params.empty).
Proof. discriminate. Qed.

End FilterFacts.

(** ** Category colors *)

Module ColorFacts.
Import Colors.

(** Each of the ten names of the palette gives its own color. *)
Lemma palette_color (name hex : string) :
  In (name, hex) colorMap -> getCategoryColor name = Str hex.
Proof.
  intro H. unfold colorMap in H. simpl in H.
  repeat (destruct H as [H|H]; [injection H as <- <-; reflexivity|]).
  contradiction.
Qed.

(** A name that neither the palette nor [Object.prototype] has gives the
    color of slate. *)
Lemma fallback_color (name : string) :
  own colorMap name = None -> ~ In name objectPrototype ->
  getCategoryColor name = Str "#64748b".
Proof.
  intros Hown Hproto. unfold getCategoryColor, get at 1. rewrite Hown.
  destruct (existsb (String.eqb name) objectPrototype) eqn:E; [|reflexivity].
  apply existsb_exists in E. destruct E as (k & Hk & Ek).
  apply String.eqb_eq in Ek. subst k. contradiction.
Qed.

(** C9: for the name "constructor", which is not in the palette, the
    function returns the member that the color map inherits from
    [Object.prototype], not the color of slate. *)
Theorem inherited_name_is_no_color :
  own colorMap "constructor" = None /\
  getCategoryColor "constructor" = Inherited "constructor" /\
  getCategoryColor "constructor" <> Str "#64748b".
Proof. repeat split. discriminate. Qed.

End ColorFacts.

(** ** Page numbers *)

Module PaginationFacts.
Import NotesPagination.
Local Open Scope list_scope.

(** A loop whose body pushes the page [i] at every round from [lo] to
    [hi] appends these pages. *)
Lemma forLoop_pushes (body : Z -> list pageItem -> list pageItem) (hi : Z) :
  forall (n : nat) (lo : Z) (pages : list pageItem),
    hi = lo + Z.of_nat n - 1 ->
    (forall i p, lo <= i <= hi -> body i p = push (PageNumber i) p) ->
    forLoop n lo hi body pages = pages ++ map PageNumber (zseq lo n).
Proof.
  induction n as [|n IH]; intros lo pages Hhi Hbody; simpl.
  - now rewrite app_nil_r.
  - destruct (lo <=? hi) eqn:E; [|apply Z.leb_gt in E; lia].
    rewrite IH; [|lia|intros; apply Hbody; lia].
    rewrite Hbody by lia. unfold push. now rewrite <- app_assoc.
Qed.

(** The fuel of the loops is enough: more of it changes nothing. *)
Lemma forLoop_fuel (body : Z -> list pageItem -> list pageItem) (hi : Z) :
  forall (n k : nat) (lo : Z) (pages : list pageItem),
    hi - lo + 1 <= Z.of_nat n ->
    forLoop (n + k) lo hi body pages = forLoop n lo hi body pages.
Proof.
  induction n as [|n IH]; intros k lo pages H; simpl.
  - destruct k; simpl; [reflexivity|].
    destruct (lo <=? hi) eqn:E; [apply Z.leb_le in E; lia|reflexivity].
  - destruct (lo <=? hi); [|reflexivity]. apply IH. lia.
Qed.

Lemma numbers_app (a b : list pageItem) :
  numbers (a ++ b) = numbers a ++ numbers b.
Proof.
  induction a as [|[n|] a IH]; simpl; [reflexivity| |]; now rewrite IH.
Qed.

Lemma numbers_map (l : list Z) : numbers (map PageNumber l) = l.
Proof. induction l as [|x l IH]; simpl; [reflexivity|now rewrite IH]. Qed.

Lemma zseq_bounds (n : nat) :
  forall lo, Forall (fun x => lo <= x < lo + Z.of_nat n) (zseq lo n).
Proof.
  induction n as [|n IH]; intro lo; simpl; constructor; [lia|].
  eapply Forall_impl; [|apply IH]. simpl. intros x Hx. lia.
Qed.

Lemma zseq_sorted (n : nat) : forall lo, StronglySorted Z.lt (zseq lo n).
Proof.
  induction n as [|n IH]; intro lo; simpl; constructor; [apply IH|].
  eapply Forall_impl; [|apply zseq_bounds]. cbv beta. intros x Hx. lia.
Qed.

Lemma sorted_snoc (l : list Z) (x : Z) :
  StronglySorted Z.lt l -> Forall (fun y => y < x) l ->
  StronglySorted Z.lt (l ++ [x]).
Proof.
  induction 1 as [|y t Ht IH Hy]; intro Hx; simpl.
  - repeat constructor.
  - inversion Hx; subst. constructor; [now apply IH|].
    apply Forall_app. split; [exact Hy|]. now repeat constructor.
Qed.

(** The items when there are more than five pages. *)
Lemma getPageNumbers_large (currentPage pageCount : Z) :
  5 < pageCount ->
  1 <= currentPage <= pageCount ->
  let start := Z.max 2 (currentPage - 1) in
  let end_ := Z.min (pageCount - 1) (currentPage + 1) in
  getPageNumbers currentPage pageCount
  = PageNumber 1
    :: (if 3 <? currentPage then [Ellipsis] else [])
    ++ map PageNumber (zseq start (rounds start end_))
    ++ (if currentPage <? pageCount - 2 then [Ellipsis] else [])
    ++ [PageNumber pageCount].
Proof.
  intros Hpc Hcur start end_. unfold getPageNumbers.
  destruct (pageCount <=? 5) eqn:E; [apply Z.leb_le in E; lia|].
  destruct (1 <? pageCount) eqn:E1; [|apply Z.ltb_ge in E1; lia].
  fold start end_.
  rewrite (forLoop_pushes _ end_ (rounds start end_) start).
  - unfold push. destruct (3 <? currentPage), (currentPage <? pageCount - 2);
      simpl; rewrite <- ?app_assoc; reflexivity.
  - unfold rounds. subst start end_. lia.
  - intros i p Hi.
    destruct (i =? 1) eqn:Ei; [apply Z.eqb_eq in Ei; subst start; lia|].
    destruct (i =? pageCount) eqn:Ej; [apply Z.eqb_eq in Ej; subst end_; lia|].
    reflexivity.
Qed.

(** The items when there are five pages at most. *)
Lemma getPageNumbers_small (currentPage pageCount : Z) :
  1 <= pageCount <= 5 ->
  getPageNumbers currentPage pageCount
  = map PageNumber (zseq 1 (Z.to_nat pageCount)).
Proof.
  intro Hpc. unfold getPageNumbers.
  destruct (pageCount <=? 5) eqn:E; [|apply Z.leb_gt in E; lia].
  rewrite (forLoop_pushes _ pageCount (rounds 1 pageCount) 1).
  - unfold rounds. simpl. f_equal. f_equal. f_equal. lia.
  - unfold rounds. lia.
  - reflexivity.
Qed.

(** C10: for [pageCount >= 1] and [currentPage] from 1 to [pageCount],
    the page numbers of the items are strictly increasing and all from 1 to
    [pageCount]; with more than five pages the first item is page 1 and the
    last is page [pageCount]; with five pages at most the items are the
    pages 1 to [pageCount]. *)
Theorem getPageNumbers_spec (currentPage pageCount : Z) :
  1 <= pageCount ->
  1 <= currentPage <= pageCount ->
  StronglySorted Z.lt (numbers (getPageNumbers currentPage pageCount)) /\
  Forall (fun n => 1 <= n <= pageCount)
    (numbers (getPageNumbers currentPage pageCount)) /\
  (5 < pageCount ->
   hd_error (getPageNumbers currentPage pageCount) = Some (PageNumber 1) /\
   last (getPageNumbers currentPage pageCount) Ellipsis = PageNumber pageCount) /\
  (pageCount <= 5 ->
   getPageNumbers currentPage pageCount
   = map PageNumber (zseq 1 (Z.to_nat pageCount))).
Proof.
  intros Hpc Hcur. destruct (Z_le_gt_dec pageCount 5) as [Hs|Hl].
  - rewrite (getPageNumbers_small currentPage pageCount) by lia.
    rewrite numbers_map. repeat split; try lia.
    + apply zseq_sorted.
    + eapply Forall_impl; [|apply zseq_bounds]. cbv beta. intros x Hx. lia.
  - rewrite (getPageNumbers_large currentPage pageCount) by lia.
    set (start := Z.max 2 (currentPage - 1)).
    set (end_ := Z.min (pageCount - 1) (currentPage + 1)).
    set (e1 := if 3 <? currentPage then [Ellipsis] else []).
    set (e2 := if currentPage <? pageCount - 2 then [Ellipsis] else []).
    assert (N : numbers (PageNumber 1 :: e1 ++ map PageNumber (zseq start (rounds start end_))
                         ++ e2 ++ [PageNumber pageCount])
                = 1 :: zseq start (rounds start end_) ++ [pageCount]).
    { simpl. rewrite !numbers_app, numbers_map. subst e1 e2.
      destruct (3 <? currentPage), (currentPage <? pageCount - 2); reflexivity. }
    rewrite N.
    assert (B : Forall (fun x => 2 <= x < pageCount) (zseq start (rounds start end_))).
    { eapply Forall_impl; [|apply zseq_bounds]. cbv beta. intros x Hx.
      unfold rounds in Hx. subst start end_. lia. }
    repeat split; try lia.
    + constructor.
      * apply sorted_snoc; [apply zseq_sorted|].
        eapply Forall_impl; [|exact B]. cbv beta. intros x Hx. lia.
      * apply Forall_app. split; [|repeat constructor; lia].
        eapply Forall_impl; [|exact B]. cbv beta. intros x Hx. lia.
    + constructor; [lia|]. apply Forall_app. split; [|repeat constructor; lia].
      eapply Forall_impl; [|exact B]. cbv beta. intros x Hx. lia.
    + rewrite !app_comm_cons, !app_assoc. apply last_last.
Qed.

Lemma getPageNumbers_spec_witness :
  StronglySorted Z.lt (numbers (getPageNumbers 5 10)) /\
  Forall (fun n => 1 <= n <= 10) (numbers (getPageNumbers 5 10)) /\
  (5 < 10 ->
   hd_error (getPageNumbers 5 10) = Some (PageNumber 1) /\
   last (getPageNumbers 5 10) Ellipsis = PageNumber 10) /\
  (10 <= 5 -> getPageNumbers 5 10 = map PageNumber (zseq 1 (Z.to_nat 10))).
Proof. apply (getPageNumbers_spec 5 10); lia. Defined.

End PaginationFacts.

(** ** The pages of the listing *)

Module PagingFacts.
Import Js NotesPage.
Local Open Scope list_scope.

(** With a numeric page and page size, the page is the [ps] notes after
    the first [(p - 1) * ps]. *)
Lemma paginatedNotes_numeric (allNotes : list Note.t) (sp : Params.t) (p ps : Z) :
  page sp = Num p -> pageSize sp = Num ps ->
  paginatedNotes allNotes sp
  = firstn (Z.to_nat ps)
      (skipn (Z.to_nat ((p - 1) * ps)) (filteredNotes allNotes sp)).
Proof.
  intros Hp Hps.
  assert (H1 : 1 <= p).
  { destruct (ListingFacts.page_at_least_1 sp) as [E|(p' & E & H)]; congruence. }
  assert (H5 : 5 <= ps <= 100).
  { destruct (ListingFacts.pageSize_range sp) as [E|(ps' & E & H)]; congruence. }
  unfold paginatedNotes, startIndex. rewrite Hp, Hps. simpl.
  set (l := filteredNotes allNotes sp). set (s := (p - 1) * ps).
  assert (Hs : 0 <= s) by (subst s; nia).
  unfold slice, toInteger.
  destruct (s <? 0) eqn:E1; [apply Z.ltb_lt in E1; lia|].
  destruct (s + ps <? 0) eqn:E2; [apply Z.ltb_lt in E2; lia|].
  destruct (Z_le_gt_dec (Z.of_nat (List.length l)) s) as [Hbig|Hsmall].
  - rewrite (Z.min_r s) by lia. rewrite !skipn_all2 by lia.
    now rewrite !firstn_nil.
  - rewrite (Z.min_l s) by lia.
    destruct (Z_le_gt_dec (s + ps) (Z.of_nat (List.length l))) as [Hfull|Hpart].
    + rewrite Z.min_l by lia. f_equal. lia.
    + rewrite Z.min_r by lia.
      rewrite !firstn_all2; [reflexivity| |]; rewrite length_skipn; lia.
Qed.

(** A page or a page size that is [NaN] gives the empty page. *)
Lemma paginatedNotes_NaN (allNotes : list Note.t) (sp : Params.t) :
  page sp = NaN \/ pageSize sp = NaN -> paginatedNotes allNotes sp = [].
Proof.
  intro H. unfold paginatedNotes, startIndex.
  assert (E : mul (sub (page sp) (Num 1)) (pageSize sp) = NaN).
  { destruct H as [H|H]; rewrite H; [reflexivity|].
    destruct (sub (page sp) (Num 1)); reflexivity. }
  rewrite E. unfold slice. simpl. now rewrite Z.sub_diag.
Qed.

(** X1: a page never has more notes than the page size. *)
Theorem page_length_bound (allNotes : list Note.t) (sp : Params.t) (ps : Z) :
  pageSize sp = Num ps ->
  Z.of_nat (List.length (paginatedNotes allNotes sp)) <= ps.
Proof.
  intro Hps.
  assert (H5 : 5 <= ps <= 100).
  { destruct (ListingFacts.pageSize_range sp) as [E|(ps' & E & H)]; congruence. }
  destruct (page sp) as [|p] eqn:Hp.
  - rewrite paginatedNotes_NaN by now left. simpl. lia.
  - rewrite (paginatedNotes_numeric allNotes sp p ps Hp Hps).
    rewrite length_firstn. lia.
Qed.

Lemma page_length_bound_witness :
  Z.of_nat (List.length
              (paginatedNotes (getMockNotes 1700000000000)
                 (Params.mk None None None (Some "2") None))) <= 5.
Proof. apply page_length_bound. reflexivity. Defined.

(** X2: when the page or the page size parameter has no integer to parse,
    no note is listed and the page renders the empty state, whatever the
    notes. *)
Theorem non_numeric_page_is_empty (allNotes : list Note.t) (sp : Params.t) :
  parseInt (orElse (Params.page sp) "1") = NaN \/
  parseInt (orElse (Params.pageSize sp) "20") = NaN ->
  paginatedNotes allNotes sp = [] /\
  exists hasSearch, render allNotes sp = EmptyState hasSearch.
Proof.
  intro H.
  assert (E : paginatedNotes allNotes sp = []).
  { apply paginatedNotes_NaN. destruct H as [H|H]; [left|right].
    - now apply ListingFacts.page_NaN.
    - unfold pageSize. now rewrite H. }
  split; [exact E|]. unfold render. rewrite E. eexists. reflexivity.
Qed.

Lemma non_numeric_page_is_empty_witness :
  paginatedNotes (getMockNotes 1700000000000)
    (Params.mk None None (Some "first") None None) = [] /\
  exists hasSearch,
    render (getMockNotes 1700000000000)
      (Params.mk None None (Some "first") None None) = EmptyState hasSearch.
Proof. apply non_numeric_page_is_empty. left. reflexivity. Defined.

(** X3: the note at position [i] of page [p] is the note at position
    [(p - 1) * ps + i] of the sorted listing, for [i] below the page size
    [ps], and there is no note at the positions from [ps] on. *)
Theorem page_positions (allNotes : list Note.t) (sp : Params.t) (p ps : Z)
    (i : nat) :
  page sp = Num p -> pageSize sp = Num ps ->
  nth_error (paginatedNotes allNotes sp) i
  = if Z.of_nat i <? ps
    then nth_error (filteredNotes allNotes sp) (Z.to_nat ((p - 1) * ps) + i)
    else None.
Proof.
  intros Hp Hps.
  rewrite (paginatedNotes_numeric allNotes sp p ps Hp Hps).
  rewrite nth_error_firstn, nth_error_skipn.
  destruct (Z.of_nat i <? ps) eqn:E.
  - apply Z.ltb_lt in E.
    destruct (Nat.ltb_spec i (Z.to_nat ps)); [reflexivity|lia].
  - apply Z.ltb_ge in E.
    destruct (Nat.ltb_spec i (Z.to_nat ps)); [lia|reflexivity].
Qed.

Lemma page_positions_witness :
  nth_error (paginatedNotes (getMockNotes 1700000000000) Params.empty) 2
  = if Z.of_nat 2 <? 20
    then nth_error (filteredNotes (getMockNotes 1700000000000) Params.empty)
           (Z.to_nat ((1 - 1) * 20) + 2)
    else None.
Proof. apply page_positions; reflexivity. Defined.

(** The page count for [t] notes and a page size [ps]. *)
Lemma pageCount_value (allNotes : list Note.t) (sp : Params.t) (ps : Z) :
  pageSize sp = Num ps ->
  pageCount allNotes sp
  = Num (Z.max (- ((- Z.of_nat (List.length (filteredNotes allNotes sp))) / ps)) 1).
Proof. intro Hps. unfold pageCount, total. rewrite Hps. reflexivity. Qed.

(** X4: when notes match, a page has notes if and only if its number is
    at most the page count, and every page before the last one is full. *)
Theorem pages_within_count (allNotes : list Note.t) (sp : Params.t) (p ps pc : Z) :
  page sp = Num p -> pageSize sp = Num ps -> pageCount allNotes sp = Num pc ->
  filteredNotes allNotes sp <> [] ->
  (paginatedNotes allNotes sp <> [] <-> p <= pc) /\
  (p < pc -> Z.of_nat (List.length (paginatedNotes allNotes sp)) = ps).
Proof.
  intros Hp Hps Hpc Hne.
  assert (H1 : 1 <= p).
  { destruct (ListingFacts.page_at_least_1 sp) as [E|(p' & E & H)]; congruence. }
  assert (H5 : 5 <= ps <= 100).
  { destruct (ListingFacts.pageSize_range sp) as [E|(ps' & E & H)]; congruence. }
  rewrite (pageCount_value allNotes sp ps Hps) in Hpc. injection Hpc as Hpc.
  rewrite (paginatedNotes_numeric allNotes sp p ps Hp Hps).
  set (l := filteredNotes allNotes sp) in *.
  set (t := Z.of_nat (List.length l)) in *.
  assert (Ht : 0 < t) by (subst t; destruct l; [contradiction|simpl; lia]).
  pose proof (ListingFacts.ceil_bounds t ps ltac:(lia)) as Hc.
  set (c := - (- t / ps)) in *.
  assert (Hc1 : 1 <= c) by nia.
  assert (Epc : pc = c) by lia. clear Hpc. subst pc.
  assert (Hlen : Z.of_nat (List.length (firstn (Z.to_nat ps) (skipn (Z.to_nat ((p - 1) * ps)) l)))
                 = Z.min ps (Z.max (t - (p - 1) * ps) 0)).
  { rewrite length_firstn, length_skipn. subst t. nia. }
  split; [split|].
  - intro Hnz. destruct (Z_le_gt_dec p c) as [H|H]; [exact H|]. exfalso.
    apply Hnz. apply length_zero_iff_nil.
    assert (t - (p - 1) * ps <= 0) by nia. lia.
  - intros Hle E. rewrite E in Hlen. simpl in Hlen.
    assert (0 < t - (p - 1) * ps) by nia. lia.
  - intro Hlt. rewrite Hlen. assert (ps <= t - (p - 1) * ps) by nia. lia.
Qed.

Lemma pages_within_count_witness :
  (paginatedNotes MoreSamples.manyNotes MoreSamples.secondPage <> [] <-> 2 <= 3) /\
  (2 < 3 ->
   Z.of_nat (List.length (paginatedNotes MoreSamples.manyNotes MoreSamples.secondPage))
   = 5).
Proof.
  apply (pages_within_count MoreSamples.manyNotes MoreSamples.secondPage 2 5 3);
    [reflexivity | reflexivity | reflexivity | discriminate].
Defined.

(** X5: the sorted listing has the notes of the store that the filter
    keeps, each as often as it is in the store (it is a permutation of
    them: none is lost, none is added); every note of a page is such a
    note, and the total is at most the number of notes of the store. *)
Theorem listing_from_store (allNotes : list Note.t) (sp : Params.t) :
  Permutation (filter (keep sp) allNotes) (filteredNotes allNotes sp) /\
  Forall (fun n => In n allNotes /\ keep sp n = true) (paginatedNotes allNotes sp) /\
  (List.length (filteredNotes allNotes sp) <= List.length allNotes)%nat.
Proof.
  split; [apply ListingFacts.filteredNotes_perm|]. split.
  - apply slice_Forall, ListingFacts.filteredNotes_Forall. auto.
  - rewrite <- (Permutation_length (ListingFacts.filteredNotes_perm allNotes sp)).
    apply filter_length_le.
Qed.

(** A page with a note starts before the end of the listing. *)
Lemma page_nonempty_start (allNotes : list Note.t) (sp : Params.t) :
  paginatedNotes allNotes sp <> [] ->
  exists p ps,
    page sp = Num p /\ pageSize sp = Num ps /\ 1 <= p /\ 5 <= ps <= 100 /\
    (p - 1) * ps < Z.of_nat (List.length (filteredNotes allNotes sp)).
Proof.
  intro Hne.
  destruct (page sp) as [|p] eqn:Hp;
    [exfalso; apply Hne, paginatedNotes_NaN; now left|].
  destruct (pageSize sp) as [|ps] eqn:Hps;
    [exfalso; apply Hne, paginatedNotes_NaN; now right|].
  exists p, ps.
  assert (H1 : 1 <= p).
  { destruct (ListingFacts.page_at_least_1 sp) as [E|(p' & E & H)]; congruence. }
  assert (H5 : 5 <= ps <= 100).
  { destruct (ListingFacts.pageSize_range sp) as [E|(ps' & E & H)]; congruence. }
  repeat split; try lia.
  destruct (Z_lt_le_dec ((p - 1) * ps)
              (Z.of_nat (List.length (filteredNotes allNotes sp)))) as [H|H];
    [exact H|].
  exfalso. apply Hne.
  rewrite (paginatedNotes_numeric allNotes sp p ps Hp Hps).
  rewrite skipn_all2 by lia. apply firstn_nil.
Qed.

(** X6: when the page renders the pagination, it gives it a current page
    and a page count that are integers with
    [1 <= currentPage <= pageCount] and [2 <= pageCount]. *)
Theorem pagination_props (allNotes : list Note.t) (sp : Params.t)
    (notes : list Note.t) (currentPage count : number) :
  render allNotes sp = NotesGrid notes (Some (currentPage, count)) ->
  exists p c : Z,
    currentPage = Num p /\ count = Num c /\ 1 <= p <= c /\ 2 <= c.
Proof.
  unfold render. intro H.
  destruct (paginatedNotes allNotes sp) as [|n rest] eqn:E; [discriminate|].
  destruct (gt (pageCount allNotes sp) (Num 1)) eqn:G; [|discriminate].
  injection H as _ <- <-.
  destruct (page_nonempty_start allNotes sp) as (p & ps & Hp & Hps & H1 & H5 & Hlt);
    [rewrite E; discriminate|].
  rewrite (pageCount_value allNotes sp ps Hps) in *.
  set (t := Z.of_nat (List.length (filteredNotes allNotes sp))) in *.
  pose proof (ListingFacts.ceil_bounds t ps ltac:(lia)) as Hc.
  exists p, (Z.max (- (- t / ps)) 1). simpl in G. apply Z.ltb_lt in G.
  repeat split; try assumption; try lia. nia.
Qed.

Lemma pagination_props_witness :
  exists p c : Z, Num 2 = Num p /\ Num 3 = Num c /\ 1 <= p <= c /\ 2 <= c.
Proof.
  apply (pagination_props MoreSamples.manyNotes MoreSamples.secondPage
           (paginatedNotes MoreSamples.manyNotes MoreSamples.secondPage)
           (Num 2) (Num 3)).
  reflexivity.
Defined.

(** X7: a page with notes shows the pagination exactly when the notes
    that match are more than the page size. *)
Theorem pagination_shown (allNotes : list Note.t) (sp : Params.t)
    (notes : list Note.t) (pagination : option (number * number)) (ps : Z) :
  pageSize sp = Num ps ->
  render allNotes sp = NotesGrid notes pagination ->
  pagination <> None <->
  ps < Z.of_nat (List.length (filteredNotes allNotes sp)).
Proof.
  intros Hps H. unfold render in H.
  destruct (paginatedNotes allNotes sp) as [|n rest] eqn:E; [discriminate|].
  assert (H5 : 5 <= ps <= 100).
  { destruct (ListingFacts.pageSize_range sp) as [E'|(ps' & E' & H')]; congruence. }
  rewrite (pageCount_value allNotes sp ps Hps) in H.
  set (t := Z.of_nat (List.length (filteredNotes allNotes sp))) in *.
  pose proof (ListingFacts.ceil_bounds t ps ltac:(lia)) as Hc.
  simpl in H.
  destruct (1 <? Z.max (- (- t / ps)) 1) eqn:G; injection H as _ <-.
  - apply Z.ltb_lt in G. split; [intros _; nia|discriminate].
  - apply Z.ltb_ge in G. split; [congruence|]. intro Hlt. exfalso. nia.
Qed.

Lemma pagination_shown_witness :
  Some (Num 2, Num 3) <> None <->
  5 < Z.of_nat (List.length (filteredNotes MoreSamples.manyNotes MoreSamples.secondPage)).
Proof.
  apply (pagination_shown MoreSamples.manyNotes MoreSamples.secondPage
           (paginatedNotes MoreSamples.manyNotes MoreSamples.secondPage)
           (Some (Num 2, Num 3)) 5); reflexivity.
Defined.

End PagingFacts.

(** ** Stability of the sort *)

Section StableSort.
Context {A : Type} (cmp : A -> A -> Z) (P : A -> bool).

(** Elements that satisfy [P] never need to be exchanged. *)
Hypothesis tie : forall x y, P x = true -> P y = true -> cmp x y <= 0.

Lemma filter_insert (x : A) (l : list A) :
  filter P (Js.insert cmp x l) = if P x then x :: filter P l else filter P l.
Proof.
  induction l as [|y t IH]; simpl.
  - destruct (P x); reflexivity.
  - destruct (cmp x y <=? 0) eqn:E; simpl.
    + destruct (P x); reflexivity.
    + rewrite IH. apply Z.leb_gt in E.
      destruct (P x) eqn:Px; [|reflexivity].
      destruct (P y) eqn:Py; [|reflexivity].
      specialize (tie x y Px Py). lia.
Qed.

Lemma filter_sort (l : list A) : filter P (Js.sort cmp l) = filter P l.
Proof.
  induction l as [|x t IH]; simpl; [reflexivity|].
  rewrite filter_insert, IH. reflexivity.
Qed.

End StableSort.

Module OrderFacts.
Import Js NotesPage.

(** X8: the notes of the listing that have the same pinned flag and the
    same time of update stand in the order they have in the store. *)
Theorem ties_keep_store_order (allNotes : list Note.t) (sp : Params.t)
    (pinned : bool) (time : Z) :
  let tied n := Bool.eqb (Note.isPinned n) pinned && (Note.updatedAt n =? time) in
  filter tied (filteredNotes allNotes sp) = filter tied (filter (keep sp) allNotes).
Proof.
  intro tied. unfold filteredNotes. apply filter_sort.
  intros x y Hx Hy. unfold tied in Hx, Hy.
  apply andb_true_iff in Hx, Hy. destruct Hx as [Px Tx], Hy as [Py Ty].
  apply Bool.eqb_prop in Px, Py. apply Z.eqb_eq in Tx, Ty.
  unfold compareNotes. rewrite Px, Py. destruct pinned; simpl; lia.
Qed.

End OrderFacts.

(** ** The toolbar and the page *)

Module ToolbarFacts.
Import Js NotesPage Matching.

(** A string that does not start with white space. *)
Lemma trimStart_fixed (s : string) :
  match s with
  | EmptyString => True
  | String c _ => isWhiteSpace c = false
  end -> trimStart s = s.
Proof. destruct s as [|c t]; simpl; [reflexivity|]. now intros ->. Qed.

Lemma trimStart_head (s : string) :
  match trimStart s with
  | EmptyString => True
  | String c _ => isWhiteSpace c = false
  end.
Proof.
  induction s as [|c t IH]; simpl; [exact I|].
  destruct (isWhiteSpace c) eqn:E; [exact IH|exact E].
Qed.

Lemma trimEnd_head (s : string) :
  match s with
  | EmptyString => True
  | String c _ => isWhiteSpace c = false
  end ->
  match trimEnd s with
  | EmptyString => True
  | String c _ => isWhiteSpace c = false
  end.
Proof.
  destruct s as [|c t]; simpl; [trivial|]. intro H.
  destruct (trimEnd t); [rewrite H|]; exact H.
Qed.

Lemma trimEnd_cons (c : ascii) (t : string) :
  trimEnd (String c t)
  = match trimEnd t with
    | EmptyString => if isWhiteSpace c then EmptyString else String c EmptyString
    | String d u => String c (String d u)
    end.
Proof. reflexivity. Qed.

Lemma trimEnd_idem (s : string) : trimEnd (trimEnd s) = trimEnd s.
Proof.
  induction s as [|c t IH]; [reflexivity|].
  rewrite (trimEnd_cons c t).
  destruct (trimEnd t) as [|d u] eqn:E.
  - destruct (isWhiteSpace c) eqn:W; [reflexivity|].
    rewrite trimEnd_cons. simpl. now rewrite W.
  - rewrite trimEnd_cons, IH. reflexivity.
Qed.

(** Trimming a trimmed string changes nothing. *)
Lemma trim_idem (s : string) : trim (trim s) = trim s.
Proof.
  unfold trim.
  rewrite (trimStart_fixed (trimEnd (trimStart s))).
  - apply trimEnd_idem.
  - apply trimEnd_head, trimStart_head.
Qed.

(** What the page parses from the URL of the toolbar. *)
Lemma searchQuery_updateURL (st : NotesToolbar.state) (sp : Params.t) :
  searchQuery (NotesToolbar.updateURL st sp)
  = if 2 <=? strlen (trim (NotesToolbar.search st))
    then trim (NotesToolbar.search st) else "".
Proof.
  unfold searchQuery. simpl.
  destruct (2 <=? strlen (trim (NotesToolbar.search st))) eqn:E; [|reflexivity].
  destruct (trim (NotesToolbar.search st)); [discriminate E|reflexivity].
Qed.

Lemma categoryId_updateURL (st : NotesToolbar.state) (sp : Params.t) :
  categoryId (NotesToolbar.updateURL st sp) = orNull (NotesToolbar.category st).
Proof.
  unfold categoryId. simpl.
  destruct (NotesToolbar.category st) as [[|c t]|]; reflexivity.
Qed.

Lemma includeArchived_updateURL (st : NotesToolbar.state) (sp : Params.t) :
  includeArchived (NotesToolbar.updateURL st sp) = NotesToolbar.includeArchived st.
Proof.
  unfold includeArchived. simpl.
  destruct (NotesToolbar.includeArchived st); reflexivity.
Qed.

(** X9: the URL the toolbar writes is stable: the toolbar that the page
    mounts from that URL writes the same URL again. *)
Theorem toolbar_url_stable (st : NotesToolbar.state) (sp : Params.t) :
  NotesToolbar.updateURL
    (ToolbarProps.initial (NotesToolbar.updateURL st sp))
    (NotesToolbar.updateURL st sp)
  = NotesToolbar.updateURL st sp.
Proof.
  unfold ToolbarProps.initial.
  rewrite searchQuery_updateURL, categoryId_updateURL, includeArchived_updateURL.
  unfold NotesToolbar.updateURL at 1. cbn [NotesToolbar.search NotesToolbar.category
    NotesToolbar.includeArchived Params.pageSize].
  unfold NotesToolbar.updateURL. f_equal.
  - destruct (2 <=? strlen (trim (NotesToolbar.search st))) eqn:E.
    + now rewrite trim_idem, E.
    + reflexivity.
  - destruct (NotesToolbar.category st) as [[|c t]|]; reflexivity.
Qed.

(** X10: for a search, a title and a content of ASCII characters, a note
    passes the filter of the page, on the URL the toolbar writes, if and
    only if: it is not archived unless the toggle is on; it has the category
    of the toolbar, if one is selected; and the trimmed search, if it has
    two characters or more, occurs in its title or its content, a capital
    letter and its small letter taken as the same. *)
Theorem toolbar_filter (st : NotesToolbar.state) (sp : Params.t) (n : Note.t) :
  isAscii (NotesToolbar.search st) ->
  isAscii (Note.title n) ->
  isAscii (Note.content n) ->
  keep (NotesToolbar.updateURL st sp) n = true <->
  (Note.isArchived n = true -> NotesToolbar.includeArchived st = true) /\
  (forall c, NotesToolbar.category st = Some c -> c <> "" ->
             Note.categoryId n = Some c) /\
  (2 <= strlen (trim (NotesToolbar.search st)) ->
   containsIgnoringCase (Note.title n) (trim (NotesToolbar.search st)) \/
   containsIgnoringCase (Note.content n) (trim (NotesToolbar.search st))).
Proof.
  intros _ _ _. unfold keep.
  rewrite searchQuery_updateURL, categoryId_updateURL, includeArchived_updateURL.
  rewrite <- !MatchingFacts.includes_ignoring_case, <- orb_true_iff.
  set (found := orb _ _).
  assert (A : negb (NotesToolbar.includeArchived st) && Note.isArchived n = false
              <-> (Note.isArchived n = true -> NotesToolbar.includeArchived st = true)).
  { destruct (NotesToolbar.includeArchived st), (Note.isArchived n); simpl;
      intuition congruence. }
  assert (C : match orNull (NotesToolbar.category st) with
              | Some c => differ (Note.categoryId n) (Some c)
              | None => false
              end = false
              <-> (forall c, NotesToolbar.category st = Some c -> c <> "" ->
                             Note.categoryId n = Some c)).
  { destruct (NotesToolbar.category st) as [[|a c]|]; simpl.
    - split; [intros _ c E Hc; congruence|reflexivity].
    - change (differ (Note.categoryId n) (Some (String a c)) = false <->
              (forall c0, Some (String a c) = Some c0 -> c0 <> "" ->
                          Note.categoryId n = Some c0)).
      rewrite FilterFacts.differ_false. split.
      + intros E c0 E0 _. congruence.
      + intro H. apply H; [reflexivity|discriminate].
    - split; [intros _ c E; discriminate|reflexivity]. }
  destruct (negb (NotesToolbar.includeArchived st) && Note.isArchived n).
  { split; [discriminate|]. intros (H & _). apply A in H. discriminate. }
  destruct (match orNull (NotesToolbar.category st) with
            | Some c => differ (Note.categoryId n) (Some c)
            | None => false
            end).
  { split; [discriminate|]. intros (_ & H & _). apply C in H. discriminate. }
  assert (A' := proj1 A eq_refl). assert (C' := proj1 C eq_refl).
  destruct (2 <=? strlen (trim (NotesToolbar.search st))) eqn:E.
  - rewrite E. apply Z.leb_le in E. subst found. tauto.
  - change (strlen "") with 0. simpl. apply Z.leb_gt in E.
    split; [|reflexivity]. intros _. repeat split; try assumption. lia.
Qed.

Lemma toolbar_filter_witness :
  keep (NotesToolbar.updateURL
          (NotesToolbar.mkState "  EGGS " (Some "cat-1") false) Params.empty)
       Samples.noteGroceries = true <->
  (Note.isArchived Samples.noteGroceries = true -> false = true) /\
  (forall c, Some "cat-1" = Some c -> c <> "" ->
             Note.categoryId Samples.noteGroceries = Some c) /\
  (2 <= strlen (trim "  EGGS ") ->
   containsIgnoringCase (Note.title Samples.noteGroceries) (trim "  EGGS ") \/
   containsIgnoringCase (Note.content Samples.noteGroceries) (trim "  EGGS ")).
Proof.
  apply (toolbar_filter (NotesToolbar.mkState "  EGGS " (Some "cat-1") false)
           Params.empty Samples.noteGroceries);
    vm_compute; repeat split; reflexivity.
Defined.

(** X11: after a change in the toolbar the page shows the first page:
    the first notes of the listing, as many as the page size allows. *)
Theorem toolbar_resets_page (allNotes : list Note.t) (st : NotesToolbar.state)
    (sp : Params.t) (ps : Z) :
  pageSize sp = Num ps ->
  page (NotesToolbar.updateURL st sp) = Num 1 /\
  paginatedNotes allNotes (NotesToolbar.updateURL st sp)
  = firstn (Z.to_nat ps) (filteredNotes allNotes (NotesToolbar.updateURL st sp)).
Proof.
  intro Hps. split; [reflexivity|].
  rewrite (PagingFacts.paginatedNotes_numeric allNotes
             (NotesToolbar.updateURL st sp) 1 ps); [reflexivity|reflexivity|exact Hps].
Qed.

Lemma toolbar_resets_page_witness :
  page (NotesToolbar.updateURL (NotesToolbar.mkState "" None false)
          MoreSamples.secondPage) = Num 1 /\
  paginatedNotes MoreSamples.manyNotes
    (NotesToolbar.updateURL (NotesToolbar.mkState "" None false) MoreSamples.secondPage)
  = firstn (Z.to_nat 5)
      (filteredNotes MoreSamples.manyNotes
         (NotesToolbar.updateURL (NotesToolbar.mkState "" None false)
            MoreSamples.secondPage)).
Proof. apply toolbar_resets_page. reflexivity. Defined.

(** X12: a query of less than two characters, as it comes in the URL, is
    not applied: the page lists what it lists without [q]. *)
Theorem short_query_dropped (allNotes : list Note.t) (sp : Params.t) :
  strlen (searchQuery sp) < 2 ->
  paginatedNotes allNotes sp = paginatedNotes allNotes (Params.withQ None sp).
Proof.
  intro H. unfold paginatedNotes, filteredNotes.
  rewrite (filter_ext (keep sp) (keep (Params.withQ None sp)));
    [reflexivity|].
  intro n. now apply FilterFacts.keep_short_query.
Qed.

Lemma short_query_dropped_witness :
  paginatedNotes Samples.sampleNotes (Params.withQ (Some "e") Params.empty)
  = paginatedNotes Samples.sampleNotes
      (Params.withQ None (Params.withQ (Some "e") Params.empty)).
Proof. apply short_query_dropped. vm_compute. reflexivity. Defined.

(** X13: selecting in the toolbar the entry that the select shows leaves
    the state as it is, unless the category is the empty string or "all". *)
Theorem select_round_trip (st : NotesToolbar.state) :
  NotesToolbar.category st <> Some "" ->
  NotesToolbar.category st <> Some "all" ->
  NotesToolbar.handleCategoryChange (ToolbarProps.selectValue st) st = st.
Proof.
  destruct st as [search category archived].
  unfold NotesToolbar.handleCategoryChange, ToolbarProps.selectValue.
  cbn [NotesToolbar.search NotesToolbar.category NotesToolbar.includeArchived].
  intros H1 H2.
  destruct category as [c|]; [|reflexivity].
  destruct c as [|a c]; [contradiction|]. cbn [orElse].
  destruct (String.eqb (String a c) "all") eqn:E; [|reflexivity].
  apply String.eqb_eq in E. congruence.
Qed.

Lemma select_round_trip_witness :
  NotesToolbar.handleCategoryChange
    (ToolbarProps.selectValue (NotesToolbar.mkState "eggs" (Some "cat-1") false))
    (NotesToolbar.mkState "eggs" (Some "cat-1") false)
  = NotesToolbar.mkState "eggs" (Some "cat-1") false.
Proof. apply select_round_trip; simpl; discriminate. Defined.

End ToolbarFacts.

(** ** Numbers written and read back *)

Module NumberFacts.
Import Js JsNumber.

Lemma digitValue_digitChar (d : Z) :
  0 <= d <= 9 -> digitValue (digitChar d) = Some d.
Proof.
  intro H.
  assert (E : d = 0 \/ d = 1 \/ d = 2 \/ d = 3 \/ d = 4 \/ d = 5 \/ d = 6 \/
              d = 7 \/ d = 8 \/ d = 9) by lia.
  repeat (destruct E as [->|E]; [reflexivity|]). subst d. reflexivity.
Qed.

Lemma digits_S (fuel : nat) (n : Z) (acc : string) :
  digits (S fuel) n acc
  = if n <? 10 then String (digitChar (n mod 10)) acc
    else digits fuel (n / 10) (String (digitChar (n mod 10)) acc).
Proof. reflexivity. Qed.

(** Reading the digits written for [n] gives [n] back. *)
Lemma parseDigits_digits (fuel : nat) :
  forall (n : Z) (rest : string),
    0 <= n < 10 ^ Z.of_nat (S fuel) ->
    parseDigits 10 (digits (S fuel) n rest) None = parseDigits 10 rest (Some n).
Proof.
  induction fuel as [|fuel IH]; intros n rest Hn; rewrite digits_S;
    destruct (n <? 10) eqn:E.
  - apply Z.ltb_lt in E. rewrite Z.mod_small by lia.
    cbn [parseDigits]. rewrite digitValue_digitChar by lia.
    destruct (n <? 10) eqn:E'; [reflexivity|apply Z.ltb_ge in E'; lia].
  - apply Z.ltb_ge in E. change (10 ^ Z.of_nat 1) with 10 in Hn. lia.
  - apply Z.ltb_lt in E. rewrite Z.mod_small by lia.
    cbn [parseDigits]. rewrite digitValue_digitChar by lia.
    destruct (n <? 10) eqn:E'; [reflexivity|apply Z.ltb_ge in E'; lia].
  - apply Z.ltb_ge in E. rewrite IH.
    + cbn [parseDigits].
      pose proof (Z.mod_pos_bound n 10 ltac:(lia)) as Hm.
      rewrite digitValue_digitChar by lia.
      destruct (n mod 10 <? 10) eqn:E'; [|apply Z.ltb_ge in E'; lia].
      f_equal. f_equal. pose proof (Z.div_mod n 10 ltac:(lia)). lia.
    + split; [apply Z.div_pos; lia|].
      apply Z.div_lt_upper_bound; [lia|].
      rewrite (Nat2Z.inj_succ (S fuel)), Z.pow_succ_r in Hn by lia. lia.
Qed.

(** The fuel of [toString] is enough. *)
Lemma digitsFuel_enough (n : Z) :
  0 <= n -> exists f, digitsFuel n = S f /\ n < 10 ^ Z.of_nat (S f).
Proof.
  intro Hn. unfold digitsFuel. exists (Z.to_nat (Z.log2 n)). split; [reflexivity|].
  pose proof (Z.log2_nonneg n) as Hl.
  rewrite Nat2Z.inj_succ, Z2Nat.id by lia.
  destruct (Z.eq_dec n 0) as [->|Hz]; [reflexivity|].
  pose proof (Z.log2_spec n ltac:(lia)) as [_ Hs].
  eapply Z.lt_le_trans; [exact Hs|].
  apply Z.pow_le_mono_l. lia.
Qed.

(** The digits of a positive integer start with a digit from 1 to 9. *)
Lemma digits_head (fuel : nat) :
  forall (n : Z) (rest : string),
    0 < n < 10 ^ Z.of_nat (S fuel) ->
    exists d t, 1 <= d <= 9 /\ digits (S fuel) n rest = String (digitChar d) t.
Proof.
  induction fuel as [|fuel IH]; intros n rest Hn; rewrite digits_S;
    destruct (n <? 10) eqn:E.
  - apply Z.ltb_lt in E. exists n, rest. rewrite Z.mod_small by lia.
    split; [lia|reflexivity].
  - apply Z.ltb_ge in E. change (10 ^ Z.of_nat 1) with 10 in Hn. lia.
  - apply Z.ltb_lt in E. exists n, rest. rewrite Z.mod_small by lia.
    split; [lia|reflexivity].
  - apply Z.ltb_ge in E. apply IH. split.
    + apply Z.div_str_pos. lia.
    + apply Z.div_lt_upper_bound; [lia|].
      rewrite (Nat2Z.inj_succ (S fuel)), Z.pow_succ_r in Hn by lia. lia.
Qed.

(** [parseInt] on a string that starts with a digit from 1 to 9. *)
Lemma parseInt_digit_head (d : Z) (t : string) :
  1 <= d <= 9 ->
  parseInt (String (digitChar d) t)
  = match parseDigits 10 (String (digitChar d) t) None with
    | Some v => Num (1 * v)
    | None => NaN
    end.
Proof.
  intro H.
  assert (E : d = 1 \/ d = 2 \/ d = 3 \/ d = 4 \/ d = 5 \/ d = 6 \/
              d = 7 \/ d = 8 \/ d = 9) by lia.
  repeat (destruct E as [->|E]; [reflexivity|]). subst d. reflexivity.
Qed.

Lemma parseInt_minus_digit_head (d : Z) (t : string) :
  1 <= d <= 9 ->
  parseInt (String "-" (String (digitChar d) t))
  = match parseDigits 10 (String (digitChar d) t) None with
    | Some v => Num (-1 * v)
    | None => NaN
    end.
Proof.
  intro H.
  assert (E : d = 1 \/ d = 2 \/ d = 3 \/ d = 4 \/ d = 5 \/ d = 6 \/
              d = 7 \/ d = 8 \/ d = 9) by lia.
  repeat (destruct E as [->|E]; [reflexivity|]). subst d. reflexivity.
Qed.

(** An integer written with [toString] is read back by [parseInt]. *)
Lemma parseInt_toString (z : Z) : parseInt (toString (Num z)) = Num z.
Proof.
  unfold toString. destruct (z <? 0) eqn:E.
  - apply Z.ltb_lt in E.
    destruct (digitsFuel_enough (- z) ltac:(lia)) as (f & -> & Hf).
    destruct (digits_head f (- z) "" ltac:(lia)) as (d & t & Hd & Ed).
    pose proof (parseDigits_digits f (- z) "" ltac:(lia)) as Hp.
    rewrite Ed in *. rewrite parseInt_minus_digit_head by exact Hd.
    rewrite Hp. cbn [parseDigits]. f_equal. ring.
  - apply Z.ltb_ge in E.
    destruct (Z.eq_dec z 0) as [->|Hz]; [reflexivity|].
    destruct (digitsFuel_enough z ltac:(lia)) as (f & -> & Hf).
    destruct (digits_head f z "" ltac:(lia)) as (d & t & Hd & Ed).
    pose proof (parseDigits_digits f z "" ltac:(lia)) as Hp.
    rewrite Ed in *. rewrite parseInt_digit_head by exact Hd.
    rewrite Hp. cbn [parseDigits]. f_equal. ring.
Qed.

End NumberFacts.

(** ** Navigation between the pages *)

Module NavigationFacts.
Import NotesPagination PageNavigation Spacing.
Local Open Scope list_scope.

Lemma numbers_large (currentPage pageCount : Z) :
  5 < pageCount -> 1 <= currentPage <= pageCount ->
  numbers (getPageNumbers currentPage pageCount)
  = 1 :: zseq (Z.max 2 (currentPage - 1))
           (rounds (Z.max 2 (currentPage - 1))
                   (Z.min (pageCount - 1) (currentPage + 1)))
      ++ [pageCount].
Proof.
  intros Hpc Hcur.
  rewrite (PaginationFacts.getPageNumbers_large currentPage pageCount Hpc Hcur).
  simpl. rewrite !PaginationFacts.numbers_app, PaginationFacts.numbers_map.
  destruct (3 <? currentPage), (currentPage <? pageCount - 2); reflexivity.
Qed.

Lemma in_zseq (n : nat) :
  forall lo x, In x (zseq lo n) <-> lo <= x < lo + Z.of_nat n.
Proof.
  induction n as [|n IH]; intros lo x; simpl zseq.
  - simpl. lia.
  - simpl In. rewrite IH. lia.
Qed.

Lemma length_zseq (n : nat) : forall lo, List.length (zseq lo n) = n.
Proof. induction n as [|n IH]; intro lo; simpl; [reflexivity|now rewrite IH]. Qed.

(** The page numbers shown are pages that exist. *)
Lemma numbers_in_range (currentPage pageCount x : Z) :
  1 <= pageCount -> 1 <= currentPage <= pageCount ->
  In x (numbers (getPageNumbers currentPage pageCount)) -> 1 <= x <= pageCount.
Proof.
  intros Hpc Hcur Hin. destruct (Z_le_gt_dec pageCount 5) as [Hs|Hl].
  - rewrite PaginationFacts.getPageNumbers_small, PaginationFacts.numbers_map in Hin by lia.
    apply in_zseq in Hin. lia.
  - rewrite numbers_large in Hin by lia.
    destruct Hin as [<-|Hin]; [lia|].
    apply in_app_iff in Hin. destruct Hin as [Hin|[<-|[]]]; [|lia].
    apply in_zseq in Hin. unfold rounds in Hin. lia.
Qed.

Lemma handlePageChange_range (sp : Params.t) (pageCount page : Z) :
  1 <= page <= pageCount ->
  exists sp',
    handlePageChange sp pageCount page = Some sp' /\
    NotesPage.page sp' = Js.Num page /\
    NotesPage.pageSize sp' = NotesPage.pageSize sp /\
    forall allNotes,
      NotesPage.filteredNotes allNotes sp' = NotesPage.filteredNotes allNotes sp.
Proof.
  intro H. exists (createPageUrl sp page). unfold handlePageChange.
  destruct (page <? 1) eqn:E1; [apply Z.ltb_lt in E1; lia|].
  destruct (pageCount <? page) eqn:E2; [apply Z.ltb_lt in E2; lia|].
  split; [reflexivity|]. split; [|split; reflexivity].
  unfold NotesPage.page, createPageUrl. cbn [Params.page].
  assert (E : Js.orElse (Some (JsNumber.toString (Js.Num page))) "1"
              = JsNumber.toString (Js.Num page)).
  { pose proof (NumberFacts.parseInt_toString page) as R.
    destruct (JsNumber.toString (Js.Num page)); [discriminate R|reflexivity]. }
  rewrite E, NumberFacts.parseInt_toString. simpl. f_equal. lia.
Qed.

(** X14: a change to a page from 1 to the page count navigates, and to
    no other page; the page then reads that very page from the URL, and the
    page size and the filtered notes are those of before. *)
Theorem handlePageChange_navigates (sp : Params.t) (pageCount page : Z) :
  (handlePageChange sp pageCount page <> None <-> 1 <= page <= pageCount) /\
  forall sp',
    handlePageChange sp pageCount page = Some sp' ->
    NotesPage.page sp' = Js.Num page /\
    NotesPage.pageSize sp' = NotesPage.pageSize sp /\
    forall allNotes,
      NotesPage.filteredNotes allNotes sp' = NotesPage.filteredNotes allNotes sp.
Proof.
  split.
  - split.
    + unfold handlePageChange. intro H.
      destruct (page <? 1) eqn:E1; [contradiction|].
      destruct (pageCount <? page) eqn:E2; [contradiction|].
      apply Z.ltb_ge in E1, E2. lia.
    + intro H. destruct (handlePageChange_range sp pageCount page H) as (sp' & E & _).
      rewrite E. discriminate.
  - intros sp' E.
    assert (H : 1 <= page <= pageCount).
    { unfold handlePageChange in E.
      destruct (page <? 1) eqn:E1; [discriminate|].
      destruct (pageCount <? page) eqn:E2; [discriminate|].
      apply Z.ltb_ge in E1, E2. lia. }
    destruct (handlePageChange_range sp pageCount page H) as (sp2 & E' & R).
    rewrite E in E'. injection E' as <-. exact R.
Qed.

(** X15: of the controls the component renders, those that do not
    navigate when clicked are exactly the ones styled as disabled: the
    previous button on the first page and the next button on the last. *)
Theorem disabled_controls (sp : Params.t) (currentPage pageCount : Z) (c : control) :
  1 <= currentPage <= pageCount ->
  In c (controls currentPage pageCount) ->
  click sp currentPage pageCount c = None <-> disabled currentPage pageCount c = true.
Proof.
  intros Hcur Hin. unfold controls in Hin.
  destruct (pageCount <=? 1) eqn:E; [contradiction|]. apply Z.leb_gt in E.
  assert (Hc : match c with
               | Link x => 1 <= x <= pageCount
               | _ => True
               end).
  { destruct c as [|x|]; [exact I| |exact I].
    destruct Hin as [Hin|Hin]; [discriminate|].
    apply in_app_iff in Hin. destruct Hin as [Hin|[Hin|[]]]; [|discriminate].
    apply in_map_iff in Hin. destruct Hin as (y & Ey & Hy). injection Ey as <-.
    apply (numbers_in_range currentPage pageCount y); [lia|exact Hcur|exact Hy]. }
  destruct c as [|x|]; unfold click, handlePageChange, disabled.
  - destruct (currentPage - 1 <? 1) eqn:E1; simpl.
    + apply Z.ltb_lt in E1. split; [intros _; apply Z.eqb_eq; lia|reflexivity].
    + apply Z.ltb_ge in E1.
      destruct (pageCount <? currentPage - 1) eqn:E2; [apply Z.ltb_lt in E2; lia|].
      split; [discriminate|]. intro H. apply Z.eqb_eq in H. lia.
  - destruct (x <? 1) eqn:E1; [apply Z.ltb_lt in E1; lia|].
    destruct (pageCount <? x) eqn:E2; [apply Z.ltb_lt in E2; lia|].
    simpl. split; discriminate.
  - destruct (currentPage + 1 <? 1) eqn:E1; [apply Z.ltb_lt in E1; lia|].
    simpl. destruct (pageCount <? currentPage + 1) eqn:E2.
    + apply Z.ltb_lt in E2. split; [intros _; apply Z.eqb_eq; lia|reflexivity].
    + apply Z.ltb_ge in E2. split; [discriminate|].
      intro H. apply Z.eqb_eq in H. lia.
Qed.

Lemma disabled_controls_witness :
  click MoreSamples.secondPage 3 3 Next = None <-> disabled 3 3 Next = true.
Proof.
  apply disabled_controls; [lia|]. vm_compute. tauto.
Defined.

(** X16: the current page is one of the page numbers shown. *)
Theorem current_page_shown (currentPage pageCount : Z) :
  1 <= currentPage <= pageCount ->
  In (PageNumber currentPage) (getPageNumbers currentPage pageCount).
Proof.
  intro Hcur. destruct (Z_le_gt_dec pageCount 5) as [Hs|Hl].
  - rewrite PaginationFacts.getPageNumbers_small by lia.
    apply in_map, in_zseq. lia.
  - rewrite PaginationFacts.getPageNumbers_large by lia.
    destruct (Z.eq_dec currentPage 1) as [->|H1]; [now left|right].
    apply in_app_iff; right. apply in_app_iff.
    destruct (Z.eq_dec currentPage pageCount) as [->|Hn].
    + right. apply in_app_iff; right. now left.
    + left. apply in_map, in_zseq. unfold rounds. lia.
Qed.

Lemma current_page_shown_witness : In (PageNumber 7) (getPageNumbers 7 20).
Proof. apply current_page_shown. lia. Defined.

(** X17: the component shows seven items at most, however many pages
    there are. *)
Theorem at_most_seven_items (currentPage pageCount : Z) :
  1 <= currentPage <= pageCount ->
  (List.length (getPageNumbers currentPage pageCount) <= 7)%nat.
Proof.
  intro Hcur. destruct (Z_le_gt_dec pageCount 5) as [Hs|Hl].
  - rewrite PaginationFacts.getPageNumbers_small by lia.
    rewrite length_map, length_zseq. lia.
  - rewrite PaginationFacts.getPageNumbers_large by lia.
    simpl List.length. rewrite !length_app, length_map, length_zseq.
    unfold rounds.
    destruct (3 <? currentPage), (currentPage <? pageCount - 2); simpl; lia.
Qed.

Lemma at_most_seven_items_witness :
  (List.length (getPageNumbers 50 100) <= 7)%nat.
Proof. apply at_most_seven_items. lia. Defined.

(** A run of page numbers that follow one another is well spaced. *)
Lemma wellSpaced_run (n : nat) :
  forall (prev : Z) (tail : list pageItem),
    wellSpaced (prev + Z.of_nat n) tail ->
    wellSpaced prev (map PageNumber (zseq (prev + 1) n) ++ tail).
Proof.
  induction n as [|n IH]; intros prev tail H.
  - simpl. now replace (prev + Z.of_nat 0) with prev in H by lia.
  - simpl. split; [reflexivity|]. apply IH.
    now replace (prev + 1 + Z.of_nat n) with (prev + Z.of_nat (S n)) by lia.
Qed.

Lemma last_run (k : nat) :
  forall (lo : Z) (d : pageItem),
    last (PageNumber lo :: map PageNumber (zseq (lo + 1) k)) d
    = PageNumber (lo + Z.of_nat k).
Proof.
  induction k as [|k IH]; intros lo d.
  - simpl. f_equal. lia.
  - change (last (PageNumber lo :: map PageNumber (zseq (lo + 1) (S k))) d)
      with (last (PageNumber (lo + 1) :: map PageNumber (zseq (lo + 1 + 1) k)) d).
    rewrite IH. f_equal. lia.
Qed.

(** X18: the items are page 1 followed by items that are well spaced
    after it, and the last item is the last page: a page number that follows
    another one directly is the next page, and an ellipsis always stands
    between two page numbers, for at least one page that is left out. *)
Theorem items_well_spaced (currentPage pageCount : Z) :
  1 <= pageCount -> 1 <= currentPage <= pageCount ->
  exists rest,
    getPageNumbers currentPage pageCount = PageNumber 1 :: rest /\
    wellSpaced 1 rest /\
    last (PageNumber 1 :: rest) Ellipsis = PageNumber pageCount.
Proof.
  intros Hpc Hcur. destruct (Z_le_gt_dec pageCount 5) as [Hs|Hl].
  - rewrite PaginationFacts.getPageNumbers_small by lia.
    assert (Hk : exists k, Z.to_nat pageCount = S k /\ 1 + Z.of_nat k = pageCount).
    { exists (Z.to_nat (pageCount - 1)). lia. }
    destruct Hk as (k & -> & Hk).
    exists (map PageNumber (zseq (1 + 1) k)).
    split; [reflexivity|]. split.
    + rewrite <- (app_nil_r (map _ _)). apply wellSpaced_run. exact I.
    + rewrite last_run. f_equal. exact Hk.
  - rewrite PaginationFacts.getPageNumbers_large by lia.
    set (start := Z.max 2 (currentPage - 1)).
    set (end_ := Z.min (pageCount - 1) (currentPage + 1)).
    eexists. split; [reflexivity|]. split.
    + assert (Hn : exists k, rounds start end_ = S k /\ start + Z.of_nat k = end_).
      { exists (Z.to_nat (end_ - start)). unfold rounds. subst start end_. lia. }
      destruct Hn as (k & -> & Hk).
      assert (Htail : wellSpaced end_
                        ((if currentPage <? pageCount - 2 then [Ellipsis] else [])
                         ++ [PageNumber pageCount])).
      { destruct (currentPage <? pageCount - 2) eqn:E2; simpl.
        - apply Z.ltb_lt in E2. subst end_. repeat split. lia.
        - apply Z.ltb_ge in E2. subst end_. repeat split. lia. }
      destruct (3 <? currentPage) eqn:E1.
      * apply Z.ltb_lt in E1. simpl. split; [subst start; lia|].
        apply wellSpaced_run. now rewrite Hk.
      * apply Z.ltb_ge in E1. simpl app at 1.
        assert (Es : start = 1 + 1) by (subst start; lia).
        rewrite Es. apply (wellSpaced_run (S k) 1).
        replace (1 + Z.of_nat (S k)) with end_ by lia. exact Htail.
    + rewrite !app_comm_cons, !app_assoc. apply last_last.
Qed.

Lemma items_well_spaced_witness :
  exists rest,
    getPageNumbers 7 20 = PageNumber 1 :: rest /\
    wellSpaced 1 rest /\
    last (PageNumber 1 :: rest) Ellipsis = PageNumber 20.
Proof. apply items_well_spaced; lia. Defined.

End NavigationFacts.

(** ** Every note is on a page *)

Module ReachFacts.
Import Js NotesPage PageNavigation.
Local Open Scope list_scope.

(** X19: every note that matches is on one of the pages from 1 to the
    page count, and a change to that page navigates to it. *)
Theorem every_note_on_a_page (allNotes : list Note.t) (sp : Params.t)
    (ps pc : Z) (n : Note.t) :
  pageSize sp = Num ps ->
  pageCount allNotes sp = Num pc ->
  In n (filteredNotes allNotes sp) ->
  exists p sp',
    1 <= p <= pc /\
    handlePageChange sp pc p = Some sp' /\
    In n (paginatedNotes allNotes sp').
Proof.
  intros Hps Hpc Hin.
  assert (H5 : 5 <= ps <= 100).
  { destruct (ListingFacts.pageSize_range sp) as [E|(ps' & E & H)]; congruence. }
  apply In_nth_error in Hin. destruct Hin as [i Hi].
  assert (Hlt : (i < List.length (filteredNotes allNotes sp))%nat).
  { apply nth_error_Some. congruence. }
  rewrite (PagingFacts.pageCount_value allNotes sp ps Hps) in Hpc.
  injection Hpc as Hpc.
  set (t := Z.of_nat (List.length (filteredNotes allNotes sp))) in *.
  pose proof (ListingFacts.ceil_bounds t ps ltac:(lia)) as Hc.
  set (q := Z.of_nat i / ps).
  assert (Hq : q * ps <= Z.of_nat i < (q + 1) * ps).
  { pose proof (Z.div_mod (Z.of_nat i) ps ltac:(lia)).
    pose proof (Z.mod_pos_bound (Z.of_nat i) ps ltac:(lia)).
    subst q. nia. }
  assert (Hq0 : 0 <= q) by (subst q; apply Z.div_pos; lia).
  assert (Hp : 1 <= q + 1 <= pc) by (split; [lia|]; subst t; nia).
  destruct (NavigationFacts.handlePageChange_range sp pc (q + 1) Hp)
    as (sp' & Hnav & Hpage & Hsize & Hsame).
  exists (q + 1), sp'. split; [exact Hp|]. split; [exact Hnav|].
  rewrite Hps in Hsize.
  rewrite (PagingFacts.paginatedNotes_numeric allNotes sp' (q + 1) ps Hpage Hsize).
  rewrite Hsame.
  apply (nth_error_In _ (i - Z.to_nat (q * ps))).
  rewrite nth_error_firstn, nth_error_skipn.
  replace (q + 1 - 1) with q by lia.
  destruct (Nat.ltb_spec (i - Z.to_nat (q * ps)) (Z.to_nat ps)) as [_|Hge]; [|lia].
  replace (Z.to_nat (q * ps) + (i - Z.to_nat (q * ps)))%nat with i by lia.
  exact Hi.
Qed.

Lemma every_note_on_a_page_witness :
  exists p sp',
    1 <= p <= 3 /\
    handlePageChange MoreSamples.secondPage 3 p = Some sp' /\
    In (MoreSamples.numbered 1) (paginatedNotes MoreSamples.manyNotes sp').
Proof.
  apply (every_note_on_a_page MoreSamples.manyNotes MoreSamples.secondPage 5 3);
    [reflexivity | reflexivity |].
  vm_compute. tauto.
Defined.

End ReachFacts.

(** ** The grid and its cards *)

Module GridFacts.
Import Grid.
Local Open Scope list_scope.

Lemma mapGet_mapSet {V : Type} (k k' : string) (v : V) (m : jsMap V) :
  mapGet k' (mapSet k v m) = if String.eqb k k' then Some v else mapGet k' m.
Proof.
  induction m as [|[k0 v0] rest IH]; simpl.
  - reflexivity.
  - destruct (String.eqb k0 k) eqn:E0; simpl.
    + apply String.eqb_eq in E0. subst k0.
      destruct (String.eqb k k'); reflexivity.
    + rewrite IH. destruct (String.eqb k0 k') eqn:E1; [|reflexivity].
      apply String.eqb_eq in E1. subst k0.
      destruct (String.eqb k k') eqn:E2; [|reflexivity].
      apply String.eqb_eq in E2. subst k'. rewrite String.eqb_refl in E0.
      discriminate.
Qed.

Lemma find_snoc {A : Type} (f : A -> bool) (l : list A) (x : A) :
  find f (l ++ [x])
  = match find f l with
    | Some y => Some y
    | None => if f x then Some x else None
    end.
Proof.
  induction l as [|y t IH]; simpl; [reflexivity|].
  destruct (f y); [reflexivity|exact IH].
Qed.

(** Reading a key of a map built from entries gives the value of the last
    entry with that key. *)
Lemma mapGet_fold {V : Type} (k : string) (entries : list (string * V)) :
  forall m : jsMap V,
    mapGet k (fold_left (fun m e => mapSet (fst e) (snd e) m) entries m)
    = match find (fun e => String.eqb (fst e) k) (rev entries) with
      | Some e => Some (snd e)
      | None => mapGet k m
      end.
Proof.
  induction entries as [|e es IH]; intro m; simpl; [reflexivity|].
  rewrite IH, find_snoc, mapGet_mapSet.
  destruct (find _ (rev es)); [reflexivity|].
  destruct (String.eqb (fst e) k); reflexivity.
Qed.

Lemma categoryMap_get (categories : list Category.t) (c : string) :
  mapGet c (categoryMap categories)
  = find (fun cat => String.eqb (Category.id cat) c) (rev categories).
Proof.
  unfold categoryMap, newMap. rewrite mapGet_fold, <- map_rev.
  induction (rev categories) as [|cat t IH]; simpl; [reflexivity|].
  destruct (String.eqb (Category.id cat) c); [reflexivity|exact IH].
Qed.

(** X20: the category of a card is the last category of the list whose
    id is the category id of the note; a note without a category id, or with
    the empty one, has none. *)
Theorem card_category_is_last (categories : list Category.t) (note : Note.t) :
  cardCategory categories note
  = match Note.categoryId note with
    | None | Some EmptyString => None
    | Some c => find (fun cat => String.eqb (Category.id cat) c) (rev categories)
    end.
Proof.
  unfold cardCategory.
  destruct (Note.categoryId note) as [[|a c]|]; try reflexivity.
  apply categoryMap_get.
Qed.

(** X21: a card never gets a category of another id or one that is not
    in the list, and it gets one whenever the list has a category with the
    category id of the note. *)
Theorem card_category_sound (categories : list Category.t) (note : Note.t) :
  (forall cat, cardCategory categories note = Some cat ->
     Note.categoryId note = Some (Category.id cat) /\ In cat categories) /\
  (forall cat, In cat categories -> Category.id cat <> "" ->
     Note.categoryId note = Some (Category.id cat) ->
     exists cat', cardCategory categories note = Some cat').
Proof.
  unfold cardCategory. split.
  - intros cat H.
    destruct (Note.categoryId note) as [[|a c]|]; try discriminate.
    rewrite categoryMap_get in H. apply find_some in H. destruct H as [Hin E].
    apply String.eqb_eq in E. rewrite E. split; [reflexivity|].
    now apply in_rev.
  - intros cat Hin Hne E. rewrite E.
    destruct (Category.id cat) as [|a c] eqn:Ei; [contradiction|].
    rewrite categoryMap_get.
    destruct (find _ (rev categories)) as [cat'|] eqn:F; [now exists cat'|].
    exfalso. apply in_rev in Hin. apply (find_none _ _ F cat) in Hin.
    rewrite Ei, String.eqb_refl in Hin. discriminate.
Qed.

(** The grid has one card per note, in the order of the notes. *)
Lemma cards_notes (notes : list Note.t) (categories : list Category.t) :
  map fst (cards notes categories) = notes.
Proof.
  unfold cards. rewrite map_map. simpl. apply map_id.
Qed.

End GridFacts.

Module CardFacts.
Import Js NoteCard.

Lemma length_append (a b : string) :
  String.length (a ++ b) = (String.length a + String.length b)%nat.
Proof. induction a as [|c a IH]; simpl; [reflexivity|now rewrite IH]. Qed.

Lemma substring0_split (n : nat) :
  forall s : string,
    exists rest,
      s = (substring0 n s ++ rest)%string /\
      String.length (substring0 n s) = Nat.min n (String.length s).
Proof.
  unfold substring0.
  induction n as [|n IH]; intro s.
  - exists s. destruct s; split; reflexivity.
  - destruct s as [|c t]; simpl.
    + exists EmptyString. split; reflexivity.
    + destruct (IH t) as (rest & E & L). exists rest.
      split; [now rewrite <- E|now rewrite L].
Qed.

(** X22: the preview of a card is the content when it has 150 characters
    at most, and its first 150 characters followed by three dots otherwise,
    so 153 characters at most; the text of the card is never empty. *)
Theorem preview_bounds (note : Note.t) :
  strlen (contentPreview note) <= 153 /\
  (strlen (Note.content note) <= 150 -> contentPreview note = Note.content note) /\
  (150 < strlen (Note.content note) ->
   exists first rest,
     Note.content note = (first ++ rest)%string /\ strlen first = 150 /\
     contentPreview note = (first ++ "...")%string) /\
  previewText note <> "".
Proof.
  unfold previewText, contentPreview, strlen.
  destruct (substring0_split 150 (Note.content note)) as (rest & E & L).
  destruct (150 <? Z.of_nat (String.length (Note.content note))) eqn:C.
  - apply Z.ltb_lt in C. split; [|split; [|split]].
    + rewrite length_append, L. simpl String.length. lia.
    + lia.
    + intros _. exists (substring0 150 (Note.content note)), rest.
      split; [exact E|]. split; [rewrite L; lia|reflexivity].
    + destruct (substring0 150 (Note.content note)); discriminate.
  - apply Z.ltb_ge in C. split; [|split; [|split]].
    + lia.
    + reflexivity.
    + lia.
    + destruct (Note.content note); discriminate.
Qed.

End CardFacts.

Module EditorFacts.
Import NoteEditorPage.

(** X23: the editor page opens the note of the mock notes of the
    dashboard that has the id of the URL, and answers not found exactly when
    no such note has that id. *)
Theorem editor_page_finds (now : Z) (id : string) :
  match NoteEditorPage now id with
  | Editor note => Note.id note = id /\ In note (NotesPage.getMockNotes now)
  | NotFound => forall note, In note (NotesPage.getMockNotes now) -> Note.id note <> id
  end.
Proof.
  unfold NoteEditorPage, getMockNote.
  destruct (find _ _) as [note|] eqn:F.
  - apply find_some in F. destruct F as [Hin E].
    apply String.eqb_eq in E. split; [exact E|exact Hin].
  - intros note Hin E. apply (find_none _ _ F note) in Hin.
    rewrite E, String.eqb_refl in Hin. discriminate.
Qed.

End EditorFacts.

Module MoreColorFacts.
Import Colors.

(** X24: the function never returns [undefined] nor the empty string:
    there is always something to give as a background color. *)
Theorem color_never_missing (name : string) :
  getCategoryColor name <> Undefined /\ getCategoryColor name <> Str "".
Proof.
  unfold getCategoryColor.
  change (get colorMap "slate") with (Str "#64748b").
  unfold get. destruct (own colorMap name) as [hex|] eqn:E.
  - assert (H : hex <> "").
    { unfold colorMap in E. simpl in E.
      repeat match type of E with
             | (if ?b then _ else _) = _ => destruct b
             end; try discriminate; injection E as <-; discriminate. }
    destruct hex; [contradiction|]. simpl. split; discriminate.
  - destruct (existsb _ _); simpl; split; discriminate.
Qed.

(** X25: for a name that is no property of [Object.prototype], the
    function returns the color of the name in the palette, and the color of
    slate when the palette has no such name. *)
Theorem color_of_plain_name (name : string) :
  ~ In name objectPrototype ->
  getCategoryColor name
  = Str (match own colorMap name with Some hex => hex | None => "#64748b" end).
Proof.
  intro H. destruct (own colorMap name) as [hex|] eqn:E.
  - unfold getCategoryColor, get. rewrite E.
    assert (Hne : hex <> "").
    { unfold colorMap in E. simpl in E.
      repeat match type of E with
             | (if ?b then _ else _) = _ => destruct b
             end; try discriminate; injection E as <-; discriminate. }
    destruct hex; [contradiction|reflexivity].
  - now apply ColorFacts.fallback_color.
Qed.

Lemma color_of_plain_name_witness :
  getCategoryColor "teal"
  = Str (match own colorMap "teal" with Some hex => hex | None => "#64748b" end).
Proof.
  apply color_of_plain_name. simpl. intuition discriminate.
Defined.

End MoreColorFacts.
